(** * nameko.events: event exchanges, event kinds, dispatch and handler queues

    A shallow embedding of [nameko/events.py] together with the call-id stack
    of the worker context that [test/test_call_id_stack.py] exercises.

    Python objects are embedded as follows.
    - A value that the code compares with [is] is a [pyobj]: an identity and
      a content.  [is] compares identities only.
    - Dictionaries ([dct], [srv_ctx], [data], [config]) are [gmap]s keyed by
      strings; a missing key raises [KeyError] where the code subscripts.
    - A method that mutates [self] or talks to the broker is a computation in
      the monad [M]: it threads a [World] and either returns or raises.  The
      world survives a raise, as the Python heap does. *)

From Stdlib Require Import ZArith NArith String Ascii List Lia.
From stdpp Require Import base numbers option list strings pretty gmap.

Local Open Scope string_scope.
Local Open Scope nat_scope.

(** ** Python values and object identity *)

Inductive pyval :=
| PyNone
| PyBool (b : bool)
| PyInt (z : Z)
| PyStr (s : string).

Global Instance pyval_eq_dec : EqDecision pyval.
Proof. solve_decision. Defined.

Record pyobj := PyObj { py_id : positive; py_val : pyval }.

(** [a is b] *)
Definition py_is (a b : pyobj) : bool := bool_decide (py_id a = py_id b).

(** [a == b] on the values modelled here. *)
Definition py_eq (a b : pyobj) : bool := bool_decide (py_val a = py_val b).

(** [str(v)], which is what [str.format] substitutes for a [{}] field. *)
Definition py_str (v : pyval) : string :=
  match v with
  | PyNone => "None"
  | PyBool true => "True"
  | PyBool false => "False"
  | PyInt z => pretty z
  | PyStr s => s
  end.

(** ** Exceptions and results *)

Inductive exn :=
| EventTypeMissing (name : string)
| EventTypeTooLong (event_type : string)
| EventHandlerConfigurationError (msg : string)
| KeyError (key : string)
| TypeError (msg : string)
| AttributeError (attr : string)
| UnboundLocalError (var : string).

Definition dquote : ascii := "034"%char.

Definition exn_message (e : exn) : string :=
  match e with
  | EventTypeMissing name =>
      "Event subclass '" +:+ name +:+
      "' cannot be created without a 'type' attribute."
  | EventTypeTooLong event_type =>
      "Event type " +:+ String dquote event_type +:+
      String dquote " too long. Should be < 255 bytes."
  | EventHandlerConfigurationError msg => msg
  | KeyError key => key
  | TypeError msg => msg
  | AttributeError attr => attr
  | UnboundLocalError var =>
      "local variable '" +:+ var +:+ "' referenced before assignment"
  end.

Inductive result (A : Type) :=
| Ok (a : A)
| Raise (e : exn).
Arguments Ok {A} a.
Arguments Raise {A} e.

Definition is_ok {A} (r : result A) : bool :=
  match r with Ok _ => true | Raise _ => false end.

(** [d[key]] *)
Definition subscript {V} (d : gmap string V) (key : string) : result V :=
  match d !! key with
  | Some v => Ok v
  | None => Raise (KeyError key)
  end.

(** ** Broker entities (kombu's [Exchange] and [Queue]) *)

Inductive delivery_mode := Transient | Persistent.

(** Modelled from the spec: [nameko.messaging.PERSISTENT] is imported by
    [events.py] but its module is not part of the sources; the specification
    calls it the persistent delivery mode. *)
Definition PERSISTENT : delivery_mode := Persistent.

Record Exchange := mkExchange {
  exchange_name : string;
  exchange_type : string;
  exchange_durable : bool;
  exchange_auto_delete : bool;
  exchange_delivery_mode : delivery_mode
}.

Record Queue := mkQueue {
  queue_name : string;
  queue_exchange : Exchange;
  queue_routing_key : string;
  queue_durable : bool;
  queue_auto_delete : bool
}.

(** One call of the transport's [publish]. *)
Record Publication := mkPublication {
  pub_exchange : option Exchange;
  pub_payload : pyval;
  pub_routing_key : pyval
}.

(** ** The world outside the process

    [entropy] is the operating system's random source read by [uuid.uuid4]:
    the [n]-th read of sixteen bytes, as a big-endian integer.  [draws] counts
    the reads made so far.  [declared] and [outbox] are what the broker has
    been asked to declare and to publish, oldest first. *)

Record World := mkWorld {
  entropy : nat → N;
  draws : nat;
  declared : list Queue;
  outbox : list Publication
}.

Definition M (A : Type) : Type := World → result A * World.

Definition ret {A} (a : A) : M A := λ w, (Ok a, w).
Definition raise {A} (e : exn) : M A := λ w, (Raise e, w).
Definition bind {A B} (m : M A) (k : A → M B) : M B :=
  λ w, match m w with
       | (Ok a, w') => k a w'
       | (Raise e, w') => (Raise e, w')
       end.
Definition lift {A} (r : result A) : M A := λ w, (r, w).

(** The three ways this file touches the world. *)
Definition read_entropy : M N :=
  λ w, (Ok (entropy w (draws w)),
        mkWorld (entropy w) (S (draws w)) (declared w) (outbox w)).
Definition declare_queue (q : Queue) : M unit :=
  λ w, (Ok tt, mkWorld (entropy w) (draws w) (declared w ++ [q]) (outbox w)).
Definition publish (p : Publication) : M unit :=
  λ w, (Ok tt, mkWorld (entropy w) (draws w) (declared w) (outbox w ++ [p])).

(** [M] carries stdpp's monad notation: [x ← m; k]. *)
Global Instance M_ret : MRet M := @ret.
Global Instance M_bind : MBind M := λ A B k m, bind m k.

(** ** Module constants *)

Definition SERVICE_POOL : pyobj := PyObj 1 (PyStr "service_pool").
Definition SINGLETON : pyobj := PyObj 2 (PyStr "singleton").
Definition BROADCAST : pyobj := PyObj 3 (PyStr "broadcast").

(** ** [get_event_exchange] *)

Definition get_event_exchange (service_name : string) : Exchange :=
  let exchange_name := service_name +:+ ".events" in
  let exchange :=
    mkExchange exchange_name "topic" true true PERSISTENT in
  exchange.

(** ** Event kinds: [EventMeta] and [Event]

    A class is its name, its bases and its own namespace.  The namespace keeps
    the data attributes; methods are the functions of this file. *)

#[warning="-register-all"] Inductive pyclass :=
| PyClass (name : string) (bases : list pyclass) (dct : gmap string pyval).

Definition cls_name (c : pyclass) : string :=
  match c with PyClass name _ _ => name end.
Definition cls_bases (c : pyclass) : list pyclass :=
  match c with PyClass _ bases _ => bases end.
Definition cls_dict (c : pyclass) : gmap string pyval :=
  match c with PyClass _ _ dct => dct end.

(** [len(v)] *)
Definition py_len (v : pyval) : result nat :=
  match v with
  | PyStr s => Ok (String.length s)
  | _ => Raise (TypeError "object has no len()")
  end.

(** [type.__new__(mcs, name, bases, dct)] *)
Definition type_new (name : string) (bases : list pyclass)
    (dct : gmap string pyval) : pyclass :=
  PyClass name bases dct.

(** [EventMeta.__new__(mcs, name, bases, dct)] *)
Definition EventMeta_new (name : string) (bases : list pyclass)
    (dct : gmap string pyval) : result pyclass :=
  match dct !! "type" with
  | None => Raise (EventTypeMissing name)
  | Some event_type =>
      match py_len event_type with
      | Raise e => Raise e
      | Ok n =>
          if (255 <? n)%nat
          then Raise (EventTypeTooLong (py_str event_type))
          else Ok (type_new name bases dct)
      end
  end.

Definition object : pyclass := PyClass "object" [] ∅.

(** [class Event(object)] is itself made by [EventMeta]. *)
Definition Event_namespace : gmap string pyval := {[ "type" := PyStr "Event" ]}.
Definition Event : result pyclass :=
  EventMeta_new "Event" [object] Event_namespace.

(** Attribute search on a class: the class's own namespace, then its bases,
    left to right and depth first.  Python linearises the bases first; the
    two searches agree whenever the class itself declares the attribute, as
    every kind made by [EventMeta] does for [type], and whenever no class of
    the hierarchy declares it. *)
Fixpoint class_getattr (attr : string) (c : pyclass) : option pyval :=
  match c with
  | PyClass _ bases dct =>
      match dct !! attr with
      | Some v => Some v
      | None =>
          (fix search (bs : list pyclass) : option pyval :=
             match bs with
             | [] => None
             | b :: bs' =>
                 match class_getattr attr b with
                 | Some v => Some v
                 | None => search bs'
                 end
             end) bases
      end
  end.

(** An instance: its class and its own [__dict__]. *)
Record instance := mkInstance {
  inst_class : pyclass;
  inst_dict : gmap string pyval
}.

(** [Event.__init__(self, data)], reached through [cls(data)]. *)
Definition Event_call (cls : pyclass) (data : pyval) : instance :=
  mkInstance cls {[ "data" := data ]}.

(** [obj.attr] *)
Definition getattr (obj : instance) (attr : string) : result pyval :=
  match inst_dict obj !! attr with
  | Some v => Ok v
  | None =>
      match class_getattr attr (inst_class obj) with
      | Some v => Ok v
      | None => Raise (AttributeError attr)
      end
  end.

(** ** [uuid.uuid4] and [str(UUID)]

    The standard library reads sixteen random bytes, forces the RFC 4122
    variant and version 4 into them, and prints the 128-bit value as
    thirty-two lower-case hexadecimal digits in groups of 8-4-4-4-12. *)

Definition uuid_of_bytes (r : N) : N :=
  let int := (r mod 2 ^ 128)%N in
  let int := N.ldiff int (N.shiftl 0xc000 48) in
  let int := N.lor int (N.shiftl 0x8000 48) in
  let int := N.ldiff int (N.shiftl 0xf000 64) in
  let int := N.lor int (N.shiftl 4 76) in
  int.

Definition uuid4 : M N :=
  bytes ← read_entropy;
  mret (uuid_of_bytes bytes).

Definition hex_char (d : N) : ascii :=
  match d with
  | 0 => "0" | 1 => "1" | 2 => "2" | 3 => "3"
  | 4 => "4" | 5 => "5" | 6 => "6" | 7 => "7"
  | 8 => "8" | 9 => "9" | 10 => "a" | 11 => "b"
  | 12 => "c" | 13 => "d" | 14 => "e" | _ => "f"
  end%char%N.

(** The [k] low hexadecimal digits of [n], most significant first, in front
    of [acc]. *)
Fixpoint hex_pad (k : nat) (n : N) (acc : string) : string :=
  match k with
  | O => acc
  | S k' => hex_pad k' (n / 16)%N (String (hex_char (n mod 16)%N) acc)
  end.

(** ['%032x' % int] for [int < 2^128]. *)
Definition hex32 (n : N) : string := hex_pad 32 n "".

(** [s[i:]] *)
Fixpoint string_drop (i : nat) (s : string) : string :=
  match i, s with
  | O, _ => s
  | S i', String _ s' => string_drop i' s'
  | S _, EmptyString => EmptyString
  end.

(** [UUID.__str__] *)
Definition UUID_str (u : N) : string :=
  let hex := hex32 u in
  substring 0 8 hex +:+ "-" +:+ substring 8 4 hex +:+ "-" +:+
  substring 12 4 hex +:+ "-" +:+ substring 16 4 hex +:+ "-" +:+
  string_drop 20 hex.

(** ** [EventDispatcher] *)

Record EventDispatcher := mkEventDispatcher {
  dispatcher_exchange : option Exchange
}.

(** [EventDispatcher()]: nothing is bound before [start]. *)
Definition EventDispatcher_init : EventDispatcher := mkEventDispatcher None.

(** [EventDispatcher.start(self, srv_ctx)] *)
Definition EventDispatcher_start (self : EventDispatcher)
    (srv_ctx : gmap string pyval) : M EventDispatcher :=
  name ← lift (subscript srv_ctx "name");
  mret (mkEventDispatcher (Some (get_event_exchange (py_str name)))).

(** Modelled from the spec: [Publisher.__call__] lives in [nameko.messaging],
    which is not part of the sources.  Per the transport interface
    [publish(exchange, payload, routing_key)] it hands the message and the
    routing key to the broker on the exchange bound to the instance. *)
Definition Publisher_call (self : EventDispatcher) (msg : pyval)
    (routing_key : pyval) : M unit :=
  publish (mkPublication (dispatcher_exchange self) msg routing_key).

(** [EventDispatcher.__call__(self, evt)] *)
Definition EventDispatcher_call (self : EventDispatcher) (evt : instance)
    : M unit :=
  msg ← lift (getattr evt "data");
  routing_key ← lift (getattr evt "type");
  Publisher_call self msg routing_key.

(** ** [event_handler] and [EventHandler] *)

Record EventHandler := mkEventHandler {
  service_name : string;
  event_type : string;
  handler_type : pyobj;
  reliable_delivery : bool;
  requeue_on_error : bool;
  queue : option Queue
}.

(** [self.queue = q] *)
Definition set_queue (self : EventHandler) (q : Queue) : EventHandler :=
  mkEventHandler (service_name self) (event_type self) (handler_type self)
    (reliable_delivery self) (requeue_on_error self) (Some q).

(** [EventHandler.__init__] *)
Definition EventHandler_init (service_name event_type : string)
    (handler_type : pyobj) (reliable_delivery requeue_on_error : bool)
    : EventHandler :=
  mkEventHandler service_name event_type handler_type
    reliable_delivery requeue_on_error None.

Definition broadcast_reliable_msg : string :=
  "Broadcast event handlers cannot be configured with reliable delivery.".

(** The body of [event_handler]; the [dependency_decorator] around it runs
    this body when the decorated method is defined. *)
Definition event_handler (service_name event_type : string)
    (handler_type : pyobj) (reliable_delivery requeue_on_error : bool)
    : result EventHandler :=
  if reliable_delivery && py_is handler_type BROADCAST
  then Raise (EventHandlerConfigurationError broadcast_reliable_msg)
  else Ok (EventHandler_init service_name event_type handler_type
             reliable_delivery requeue_on_error).

(** Modelled from the spec: [ConsumeProvider.start] lives in
    [nameko.messaging], which is not part of the sources.  Per the transport
    interface [declare_queue(name, exchange, routing_key, durable,
    auto_delete)] the container declares and binds the queue held by the
    registration when it starts. *)
Definition ConsumeProvider_start (self : EventHandler)
    (srv_ctx : gmap string pyval) : M EventHandler :=
  match queue self with
  | Some q => _ ← declare_queue q; mret self
  | None => raise (AttributeError "queue")
  end.

(** The [if]/[elif] chain of [EventHandler.start]: the local [queue_name],
    or [None] when no branch binds it. *)
Definition derive_queue_name (self : EventHandler)
    (srv_ctx : gmap string pyval) : M (option string) :=
  if py_is (handler_type self) SERVICE_POOL then
    name ← lift (subscript srv_ctx "name");
    mret (Some ("evt-" +:+ service_name self +:+ "-" +:+ event_type self
                +:+ "-" +:+ py_str name))
  else if py_is (handler_type self) SINGLETON then
    mret (Some ("evt-" +:+ service_name self +:+ "-" +:+ event_type self))
  else if py_is (handler_type self) BROADCAST then
    u ← uuid4;
    mret (Some ("evt-" +:+ service_name self +:+ "-" +:+ event_type self
                +:+ "-" +:+ UUID_str u))
  else
    mret None.

(** Reading a local that may not have been bound. *)
Definition read_local {A} (var : string) (v : option A) : M A :=
  match v with
  | Some a => mret a
  | None => raise (UnboundLocalError var)
  end.

(** [EventHandler.start(self, srv_ctx)].  The debug log line at its head
    writes to the logger only and is left out. *)
Definition EventHandler_start (self : EventHandler)
    (srv_ctx : gmap string pyval) : M EventHandler :=
  bound ← derive_queue_name self srv_ctx;
  let exchange := get_event_exchange (service_name self) in
  let auto_delete := negb (reliable_delivery self) in
  queue_name ← read_local "queue_name" bound;
  let self :=
    set_queue self
      (mkQueue queue_name exchange (event_type self) true auto_delete) in
  ConsumeProvider_start self srv_ctx.

(** [for evt in evts: self(evt)] *)
Fixpoint dispatch_each (self : EventDispatcher) (evts : list instance)
    : M unit :=
  match evts with
  | [] => mret tt
  | evt :: evts' =>
      _ ← EventDispatcher_call self evt;
      dispatch_each self evts'
  end.

(** Whether [handler_type] is one of the three module constants. *)
Definition is_sentinel (ht : pyobj) : bool :=
  py_is ht SERVICE_POOL || py_is ht SINGLETON || py_is ht BROADCAST.

(** The name of the queue a started registration holds. *)
Definition started_queue_name (r : result EventHandler) : option string :=
  match r with
  | Ok self => queue_name <$> queue self
  | Raise _ => None
  end.

(** The UUID that the next call of [uuid4] returns in [w]. *)
Definition next_uuid (w : World) : N := uuid_of_bytes (entropy w (draws w)).

(** ** The worker context and its call-id stack *)

(** Modelled from the spec: [nameko.constants.PARENT_CALLS_CONFIG_KEY] is
    imported by the tests but its module is not part of the sources, and the
    specification names the key without spelling it.  Nothing below depends
    on the spelling. *)
Definition PARENT_CALLS_CONFIG_KEY : string := "parent_calls_tracked".

Record Container := mkContainer {
  container_service_name : string;
  container_config : gmap string nat
}.

Record WorkerContext := mkWorkerContext {
  call_id : string;
  call_id_stack : list string;
  immediate_parent_call_id : option string
}.

(** Modelled from the spec: step 1 of the stack construction,
    [data['call_id_stack']] defaulting to empty when absent. *)
Definition inherited_stack (data : option (gmap string (list string)))
    : list string :=
  match data with
  | Some d => default [] (d !! "call_id_stack")
  | None => []
  end.

(** Modelled from the spec: steps 2 and 3 of the stack construction.  With a
    cap configured and an inherited stack longer than it, the oldest entries
    are dropped until [cap] remain. *)
Definition truncate_stack (cap : option nat) (inherited : list string)
    : list string :=
  match cap with
  | Some cap =>
      if (cap <? length inherited)%nat
      then drop (length inherited - cap) inherited
      else inherited
  | None => inherited
  end.

(** Modelled from the spec: the call id
    ["{service_name}.{entrypoint_name}.{sequence_number}"]. *)
Definition format_call_id (service entrypoint : string) (seq : nat) : string :=
  service +:+ "." +:+ entrypoint +:+ "." +:+ pretty seq.

(** Modelled from the spec: [WorkerContext(container, service, entrypoint,
    args, kwargs, data)] of [nameko.containers], which is not part of the
    sources.  [seq] is the process-wide sequence counter, handed in and
    handed back advanced. *)
Definition WorkerContext_new (container : Container) (entrypoint : string)
    (data : option (gmap string (list string))) (seq : nat)
    : WorkerContext * nat :=
  let own := format_call_id (container_service_name container) entrypoint seq in
  let inherited := inherited_stack data in
  let cap := container_config container !! PARENT_CALLS_CONFIG_KEY in
  let stack := (truncate_stack cap inherited ++ [own])%list in
  (mkWorkerContext own stack (last inherited), S seq).

(** ** Sample values

    A world whose random source returns a different value at every read, the
    context of a container named [listener], and a string that equals the
    [BROADCAST] constant without being it. *)

Definition sample_world : World :=
  mkWorld (λ n, (0x0123456789abcdef0123456789abcdef + N.of_nat n)%N) 0 [] [].

Definition listener_ctx : gmap string pyval := {[ "name" := PyStr "listener" ]}.

Definition raiser_ctx : gmap string pyval := {[ "name" := PyStr "event_raiser" ]}.

Definition Spam_namespace : gmap string pyval := {[ "type" := PyStr "spam.ham" ]}.
Definition Spam : pyclass := PyClass "Spam" [object] Spam_namespace.

(** The containers and the inherited stacks of [test_call_id_stack.py]. *)
Definition baz : Container := mkContainer "baz" ∅.
Definition baz_capped : Container :=
  mkContainer "baz" {[ PARENT_CALLS_CONFIG_KEY := 1 ]}.
Definition many_ids (n : nat) : list string := pretty <$> seq 0 n.
Definition stack_data (stack : list string) : gmap string (list string) :=
  {[ "call_id_stack" := stack ]}.

(** A broadcast registration, and the world its first start leaves behind. *)
Definition broadcast_hello : EventHandler :=
  EventHandler_init "src" "hello" BROADCAST false false.
Definition world_after_start : World :=
  (EventHandler_start broadcast_hello listener_ctx sample_world).2.

Definition broadcast_lookalike : pyobj := PyObj 9 (PyStr "broadcast").

Fixpoint string_repeat (c : ascii) (n : nat) : string :=
  match n with
  | O => EmptyString
  | S n' => String c (string_repeat c n')
  end.

(** A pooled registration and the two registrations above once started in
    [listener_ctx], the broadcast one in [sample_world]. *)
Definition pooled_hello : EventHandler :=
  EventHandler_init "src" "hello" SERVICE_POOL true false.
Definition pooled_hello_started : EventHandler :=
  set_queue pooled_hello
    (mkQueue "evt-src-hello-listener" (get_event_exchange "src") "hello"
       true false).
Definition broadcast_hello_started : EventHandler :=
  set_queue broadcast_hello
    (mkQueue "evt-src-hello-01234567-89ab-4def-8123-456789abcdef"
       (get_event_exchange "src") "hello" true true).

(** An object that carries [data] but whose class declares no [type]. *)
Definition typeless_event : instance :=
  mkInstance object {[ "data" := PyStr "ham" ]}.

(** A world whose random source returns the same sixteen bytes at every
    read. *)
Definition repeating_world : World :=
  mkWorld (λ _, 0x0123456789abcdef0123456789abcdef%N) 0 [] [].

(** Whether [s] is free of ["-"], the separator that the queue names of
    [EventHandler.start] put between their fields. *)
Fixpoint dash_free (s : string) : bool :=
  match s with
  | EmptyString => true
  | String c s' => negb (Ascii.eqb c "-") && dash_free s'
  end.

(** A kind whose [type] is 256 bytes long, one more than [EventMeta] takes. *)
Definition long_type : string := string_repeat "a" 256.

(** * Properties *)

(** ** Strings *)

Lemma string_app_nil (t : string) : "" +:+ t = t.
Proof. reflexivity. Qed.

Lemma string_app_cons (a : ascii) (s t : string) :
  String a s +:+ t = String a (s +:+ t).
Proof. reflexivity. Qed.

Lemma string_length_app (s t : string) :
  String.length (s +:+ t) = String.length s + String.length t.
Proof.
  induction s as [|a s IH]; [done|].
  rewrite string_app_cons. simpl. by rewrite IH.
Qed.

(** Two concatenations that agree and end in pieces of equal length agree
    piece by piece. *)
Lemma string_app_inj_suffix (a b x y : string) :
  String.length x = String.length y →
  a +:+ x = b +:+ y → a = b ∧ x = y.
Proof.
  intros Hlen. revert b.
  induction a as [|c a IH]; intros [|d b] H.
  - done.
  - rewrite string_app_nil, string_app_cons in H.
    apply (f_equal String.length) in H. simpl in H.
    rewrite string_length_app in H. lia.
  - rewrite string_app_nil, string_app_cons in H.
    apply (f_equal String.length) in H. simpl in H.
    rewrite string_length_app in H. lia.
  - rewrite !string_app_cons in H. injection H as -> H.
    destruct (IH _ H) as [-> ->]. done.
Qed.

Lemma string_app_assoc (s t u : string) : (s +:+ t) +:+ u = s +:+ (t +:+ u).
Proof.
  induction s as [|a s IH]; [done|].
  rewrite !string_app_cons. by rewrite IH.
Qed.

(** ** UUIDs and their text *)

Lemma hex_char_inj (d e : N) :
  (d < 16)%N → (e < 16)%N → hex_char d = hex_char e → d = e.
Proof.
  intros Hd He.
  assert (d ∈ [0; 1; 2; 3; 4; 5; 6; 7; 8; 9; 10; 11; 12; 13; 14; 15]%N) as Hdin.
  { rewrite !elem_of_cons. lia. }
  assert (e ∈ [0; 1; 2; 3; 4; 5; 6; 7; 8; 9; 10; 11; 12; 13; 14; 15]%N) as Hein.
  { rewrite !elem_of_cons. lia. }
  clear Hd He. rewrite !elem_of_cons, elem_of_nil in Hdin, Hein.
  destruct_or!; subst; try done.
Qed.

Lemma hex_pad_length (k : nat) (n : N) (acc : string) :
  String.length (hex_pad k n acc) = k + String.length acc.
Proof.
  revert n acc. induction k as [|k IH]; intros n acc; simpl; [done|].
  rewrite IH. simpl. lia.
Qed.

(** Equal digit strings come from numbers that agree on those digits. *)
Lemma hex_pad_inj (k : nat) (n m : N) (a b : string) :
  hex_pad k n a = hex_pad k m b →
  (n mod 16 ^ N.of_nat k = m mod 16 ^ N.of_nat k)%N ∧ a = b.
Proof.
  revert n m a b. induction k as [|k IH]; intros n m a b H.
  - simpl in H. by rewrite !N.mod_1_r.
  - simpl in H. apply IH in H as [Hhigh Hacc].
    injection Hacc as Hd ->.
    apply hex_char_inj in Hd; [|by apply N.mod_lt..].
    split; [|done].
    rewrite Nat2N.inj_succ, N.pow_succ_r'.
    rewrite (N.Div0.mod_mul_r n), (N.Div0.mod_mul_r m).
    by rewrite Hd, Hhigh.
Qed.

Lemma hex32_length (n : N) : String.length (hex32 n) = 32.
Proof. unfold hex32. by rewrite hex_pad_length. Qed.

Lemma hex32_inj (n m : N) :
  (n < 2 ^ 128)%N → (m < 2 ^ 128)%N → hex32 n = hex32 m → n = m.
Proof.
  intros Hn Hm H. apply hex_pad_inj in H as [H _].
  change (16 ^ N.of_nat 32)%N with (2 ^ 128)%N in H.
  by rewrite !N.mod_small in H.
Qed.

Lemma lor_lt_pow2 (a b n : N) :
  (a < 2 ^ n)%N → (b < 2 ^ n)%N → (N.lor a b < 2 ^ n)%N.
Proof.
  intros Ha Hb.
  destruct (decide (a = 0%N)) as [->|Hna]; [by rewrite N.lor_0_l|].
  destruct (decide (b = 0%N)) as [->|Hnb]; [by rewrite N.lor_0_r|].
  assert (N.lor a b ≠ 0%N) as Hor.
  { intros H0. apply N.lor_eq_0_iff in H0. tauto. }
  apply N.log2_lt_pow2; [lia|].
  rewrite N.log2_lor.
  apply N.log2_lt_pow2 in Ha; [|lia].
  apply N.log2_lt_pow2 in Hb; [|lia].
  lia.
Qed.

(** A UUID is a 128-bit value whatever the random source returned. *)
Lemma uuid_of_bytes_lt (r : N) : (uuid_of_bytes r < 2 ^ 128)%N.
Proof.
  unfold uuid_of_bytes.
  assert (r mod 2 ^ 128 < 2 ^ 128)%N as H0 by (by apply N.mod_lt).
  set (i0 := (r mod 2 ^ 128)%N) in *.
  pose proof (N.ldiff_le_l i0 (N.shiftl 49152 48)) as H1.
  set (i1 := N.ldiff i0 _) in *.
  assert (N.lor i1 (N.shiftl 32768 48) < 2 ^ 128)%N as H2.
  { apply lor_lt_pow2; [lia|done]. }
  set (i2 := N.lor i1 _) in *.
  pose proof (N.ldiff_le_l i2 (N.shiftl 61440 64)) as H3.
  set (i3 := N.ldiff i2 _) in *.
  apply lor_lt_pow2; [lia|done].
Qed.

(** The text of a UUID is thirty-six characters long. *)
Lemma UUID_str_length (u : N) : String.length (UUID_str u) = 36.
Proof.
  unfold UUID_str. pose proof (hex32_length u) as Hlen.
  destruct (hex32 u) as [|c h]; [done|].
  do 31 (destruct h as [|? h]; [done|]).
  destruct h; [done|]. simpl in Hlen. lia.
Qed.

(** Grouping the digits loses none of them. *)
Lemma UUID_str_hex32 (u v : N) : UUID_str u = UUID_str v → hex32 u = hex32 v.
Proof.
  unfold UUID_str.
  pose proof (hex32_length u) as Hu. pose proof (hex32_length v) as Hv.
  destruct (hex32 u) as [|c h]; [done|].
  do 31 (destruct h as [|? h]; [done|]).
  destruct h; [|simpl in Hu; lia].
  destruct (hex32 v) as [|d k]; [done|].
  do 31 (destruct k as [|? k]; [done|]).
  destruct k; [|simpl in Hv; lia].
  cbv. congruence.
Qed.

Lemma UUID_str_inj (u v : N) :
  (u < 2 ^ 128)%N → (v < 2 ^ 128)%N → UUID_str u = UUID_str v → u = v.
Proof. intros Hu Hv H. by apply hex32_inj, UUID_str_hex32. Qed.

(** ** Identity of the module constants *)

Lemma py_is_spec (a b : pyobj) : py_is a b = true ↔ py_id a = py_id b.
Proof. unfold py_is. apply bool_decide_eq_true. Qed.

Lemma py_is_false_spec (a b : pyobj) : py_is a b = false ↔ py_id a ≠ py_id b.
Proof. unfold py_is. apply bool_decide_eq_false. Qed.

Lemma sentinels_distinct :
  py_is SERVICE_POOL SINGLETON = false
  ∧ py_is SERVICE_POOL BROADCAST = false
  ∧ py_is SINGLETON BROADCAST = false.
Proof. by vm_compute. Qed.

(** At most one branch of the [if]/[elif] chain can be taken. *)
Lemma py_is_exclusive (ht a b : pyobj) :
  py_is a b = false → py_is ht a = true → py_is ht b = false.
Proof.
  rewrite !py_is_false_spec, py_is_spec. intros Hab Ha. by rewrite Ha.
Qed.

(** ** Registration-time validation *)

(** C1: [event_handler] raises [EventHandlerConfigurationError] exactly when
    [handler_type is BROADCAST] and [reliable_delivery] is true; it raises
    nothing else; and each remaining combination of a handler type among
    [SERVICE_POOL], [SINGLETON], [BROADCAST] with a reliable-delivery flag
    returns the registration built from the five arguments. *)
Theorem event_handler_raises_iff_reliable_broadcast
    (sn et : string) (ht : pyobj) (rd roe : bool) :
  (event_handler sn et ht rd roe
     = Raise (EventHandlerConfigurationError broadcast_reliable_msg)
   ↔ py_is ht BROADCAST = true ∧ rd = true)
  ∧ (event_handler sn et ht rd roe = Ok (EventHandler_init sn et ht rd roe)
     ↔ ¬ (py_is ht BROADCAST = true ∧ rd = true))
  ∧ (∀ e, event_handler sn et ht rd roe = Raise e →
          e = EventHandlerConfigurationError broadcast_reliable_msg)
  ∧ event_handler sn et SERVICE_POOL rd roe
      = Ok (EventHandler_init sn et SERVICE_POOL rd roe)
  ∧ event_handler sn et SINGLETON rd roe
      = Ok (EventHandler_init sn et SINGLETON rd roe)
  ∧ event_handler sn et BROADCAST false roe
      = Ok (EventHandler_init sn et BROADCAST false roe)
  ∧ event_handler sn et BROADCAST true roe
      = Raise (EventHandlerConfigurationError broadcast_reliable_msg).
Proof.
  unfold event_handler.
  repeat split.
  - destruct rd, (py_is ht BROADCAST); simpl; intros; done.
  - destruct rd, (py_is ht BROADCAST); simpl; intros; done.
  - intros [-> ->]. done.
  - destruct rd, (py_is ht BROADCAST); simpl; intros ? []; done.
  - destruct rd, (py_is ht BROADCAST); simpl; intros H; try done.
    exfalso. by apply H.
  - destruct (rd && py_is ht BROADCAST); intros e He; by inversion He.
  - by destruct rd.
  - by destruct rd.
Qed.

(** The registration that [event_handler] returns holds no queue yet. *)
Lemma event_handler_unbound sn et ht rd roe self :
  event_handler sn et ht rd roe = Ok self → queue self = None.
Proof.
  unfold event_handler. destruct (rd && py_is ht BROADCAST); [done|].
  by intros [= <-].
Qed.

(** ** The event exchange *)

(** C6: [get_event_exchange] is a function of the service name alone.  Its
    result is the exchange named ["{service_name}.events"], of type topic,
    durable, auto-deleted and with persistent delivery mode; equal names give
    equal exchanges; and evaluating it inside a computation leaves the world
    as it was. *)
Theorem get_event_exchange_pure (service_name : string) :
  exchange_name (get_event_exchange service_name) = service_name +:+ ".events"
  ∧ exchange_type (get_event_exchange service_name) = "topic"
  ∧ exchange_durable (get_event_exchange service_name) = true
  ∧ exchange_auto_delete (get_event_exchange service_name) = true
  ∧ exchange_delivery_mode (get_event_exchange service_name) = Persistent
  ∧ (∀ other : string,
       other = service_name →
       get_event_exchange other = get_event_exchange service_name)
  ∧ (∀ w : World,
       (mret (get_event_exchange service_name) : M Exchange) w
       = (Ok (get_event_exchange service_name), w)).
Proof.
  repeat split; try reflexivity.
  intros other ->. reflexivity.
Qed.

(** Distinct services never share an exchange. *)
Lemma get_event_exchange_inj (s1 s2 : string) :
  get_event_exchange s1 = get_event_exchange s2 → s1 = s2.
Proof.
  unfold get_event_exchange. intros [= H].
  by apply string_app_inj_suffix in H as [-> _].
Qed.

(** ** Event kinds *)

Lemma class_getattr_own attr name bases dct v :
  dct !! attr = Some v →
  class_getattr attr (PyClass name bases dct) = Some v.
Proof. intros H. simpl. by rewrite H. Qed.

(** Whatever [EventMeta] lets through declares its own string [type] of at
    most 255 bytes. *)
Lemma EventMeta_new_ok_inv name bases dct cls :
  EventMeta_new name bases dct = Ok cls →
  cls = PyClass name bases dct
  ∧ ∃ t, dct !! "type" = Some (PyStr t) ∧ (String.length t ≤ 255)%nat.
Proof.
  unfold EventMeta_new.
  destruct (dct !! "type") as [[| |z|t]|] eqn:Ht; simpl; try done.
  destruct (255 <? String.length t)%nat eqn:Hlen; [done|].
  intros [= <-]. split; [done|]. exists t. split; [done|].
  apply Nat.ltb_ge in Hlen. lia.
Qed.

(** C4: defining an event kind fails with [EventTypeMissing] when the kind's
    own namespace has no [type] (whatever its bases declare), fails with
    [EventTypeTooLong] when the declared [type] is longer than 255 bytes, and
    otherwise yields the kind; a [type] of exactly 255 bytes is accepted.
    Instantiating a kind has no failing path: the instance exists, reads its
    [type] from the kind and its [data] from itself. *)
Theorem EventMeta_new_checks_own_type
    (name : string) (bases : list pyclass) (dct : gmap string pyval) :
  (dct !! "type" = None →
     EventMeta_new name bases dct = Raise (EventTypeMissing name))
  ∧ (∀ t, dct !! "type" = Some (PyStr t) → (255 < String.length t)%nat →
       EventMeta_new name bases dct = Raise (EventTypeTooLong t))
  ∧ (∀ t, dct !! "type" = Some (PyStr t) → (String.length t ≤ 255)%nat →
       EventMeta_new name bases dct = Ok (PyClass name bases dct)
       ∧ ∀ data,
           getattr (Event_call (PyClass name bases dct) data) "type"
             = Ok (PyStr t)
           ∧ getattr (Event_call (PyClass name bases dct) data) "data"
             = Ok data).
Proof.
  unfold EventMeta_new. split; [|split].
  - by intros ->.
  - intros t -> Hlen. simpl.
    apply Nat.ltb_lt in Hlen. by rewrite Hlen.
  - intros t Ht Hlen. rewrite Ht. simpl.
    apply Nat.ltb_ge in Hlen. rewrite Hlen.
    split; [done|]. intros data. unfold getattr, Event_call. simpl. split.
    + rewrite lookup_singleton_ne by done. by rewrite Ht.
    + by rewrite lookup_singleton_eq.
Qed.

(** ** Starting a registration *)

Ltac run_M :=
  unfold mbind, mret, M_bind, M_ret, bind, ret, lift, raise, subscript,
    read_local, declare_queue, publish, read_entropy in *;
  simpl in *.

Lemma derive_queue_name_service_pool self srv_ctx w name :
  py_is (handler_type self) SERVICE_POOL = true →
  srv_ctx !! "name" = Some name →
  derive_queue_name self srv_ctx w
  = (Ok (Some ("evt-" +:+ service_name self +:+ "-" +:+ event_type self
               +:+ "-" +:+ py_str name)), w).
Proof.
  intros Hsp Hname. unfold derive_queue_name. rewrite Hsp.
  run_M. by rewrite Hname.
Qed.

Lemma derive_queue_name_singleton self srv_ctx w :
  py_is (handler_type self) SINGLETON = true →
  derive_queue_name self srv_ctx w
  = (Ok (Some ("evt-" +:+ service_name self +:+ "-" +:+ event_type self)), w).
Proof.
  intros Hsi. unfold derive_queue_name.
  assert (py_is (handler_type self) SERVICE_POOL = false) as ->.
  { revert Hsi. rewrite py_is_spec, py_is_false_spec. by intros ->. }
  by rewrite Hsi.
Qed.

Lemma derive_queue_name_broadcast self srv_ctx w :
  py_is (handler_type self) BROADCAST = true →
  derive_queue_name self srv_ctx w
  = (Ok (Some ("evt-" +:+ service_name self +:+ "-" +:+ event_type self
               +:+ "-" +:+ UUID_str (next_uuid w))),
     mkWorld (entropy w) (S (draws w)) (declared w) (outbox w)).
Proof.
  intros Hbc. unfold derive_queue_name.
  assert (py_is (handler_type self) SERVICE_POOL = false) as ->.
  { revert Hbc. rewrite py_is_spec, py_is_false_spec. by intros ->. }
  assert (py_is (handler_type self) SINGLETON = false) as ->.
  { revert Hbc. rewrite py_is_spec, py_is_false_spec. by intros ->. }
  by rewrite Hbc.
Qed.

Lemma derive_queue_name_other self srv_ctx w :
  is_sentinel (handler_type self) = false →
  derive_queue_name self srv_ctx w = (Ok None, w).
Proof.
  unfold is_sentinel, derive_queue_name.
  destruct (py_is _ SERVICE_POOL), (py_is _ SINGLETON), (py_is _ BROADCAST);
    done.
Qed.

(** Once a name is bound, the rest of [start] cannot fail: it stores the
    queue on the registration and declares it. *)
Lemma EventHandler_start_bound self srv_ctx w name w1 :
  derive_queue_name self srv_ctx w = (Ok (Some name), w1) →
  let q := mkQueue name (get_event_exchange (service_name self))
             (event_type self) true (negb (reliable_delivery self)) in
  EventHandler_start self srv_ctx w
  = (Ok (set_queue self q),
     mkWorld (entropy w1) (draws w1) (declared w1 ++ [q]) (outbox w1)).
Proof.
  intros H q. unfold EventHandler_start, ConsumeProvider_start.
  run_M. by rewrite H.
Qed.

Lemma EventHandler_start_unbound self srv_ctx w w1 :
  derive_queue_name self srv_ctx w = (Ok None, w1) →
  EventHandler_start self srv_ctx w
  = (Raise (UnboundLocalError "queue_name"), w1).
Proof.
  intros H. unfold EventHandler_start. run_M. by rewrite H.
Qed.

Lemma EventHandler_start_raise self srv_ctx w e w1 :
  derive_queue_name self srv_ctx w = (Raise e, w1) →
  EventHandler_start self srv_ctx w = (Raise e, w1).
Proof.
  intros H. unfold EventHandler_start. run_M. by rewrite H.
Qed.

(** Deriving the name neither declares nor publishes anything, and never
    rewinds the random source. *)
Lemma derive_queue_name_world self srv_ctx w r w1 :
  derive_queue_name self srv_ctx w = (r, w1) →
  entropy w1 = entropy w ∧ draws w ≤ draws w1
  ∧ declared w1 = declared w ∧ outbox w1 = outbox w.
Proof.
  unfold derive_queue_name.
  destruct (py_is (handler_type self) SERVICE_POOL),
    (py_is (handler_type self) SINGLETON),
    (py_is (handler_type self) BROADCAST);
    run_M; try destruct (srv_ctx !! "name"); intros [= <- <-]; simpl;
    repeat split; lia.
Qed.

Lemma started_name_service_pool self srv_ctx w name :
  py_is (handler_type self) SERVICE_POOL = true →
  srv_ctx !! "name" = Some name →
  started_queue_name (EventHandler_start self srv_ctx w).1
  = Some ("evt-" +:+ service_name self +:+ "-" +:+ event_type self
          +:+ "-" +:+ py_str name).
Proof.
  intros Hsp Hname.
  by rewrite (EventHandler_start_bound _ _ _ _ _
                (derive_queue_name_service_pool _ _ w _ Hsp Hname)).
Qed.

Lemma started_name_singleton self srv_ctx w :
  py_is (handler_type self) SINGLETON = true →
  started_queue_name (EventHandler_start self srv_ctx w).1
  = Some ("evt-" +:+ service_name self +:+ "-" +:+ event_type self).
Proof.
  intros Hsi.
  by rewrite (EventHandler_start_bound _ _ _ _ _
                (derive_queue_name_singleton _ srv_ctx w Hsi)).
Qed.

Lemma started_name_broadcast self srv_ctx w :
  py_is (handler_type self) BROADCAST = true →
  started_queue_name (EventHandler_start self srv_ctx w).1
  = Some ("evt-" +:+ service_name self +:+ "-" +:+ event_type self
          +:+ "-" +:+ UUID_str (next_uuid w))
  ∧ draws (EventHandler_start self srv_ctx w).2 = S (draws w).
Proof.
  intros Hbc.
  by rewrite (EventHandler_start_bound _ _ _ _ _
                (derive_queue_name_broadcast _ srv_ctx w Hbc)).
Qed.

(** C2: the queue name that [start] derives is
    ["evt-{service_name}-{event_type}-{dest}"] for [SERVICE_POOL], where
    [dest] is the name of the starting container;
    ["evt-{service_name}-{event_type}"] for [SINGLETON]; and
    ["evt-{service_name}-{event_type}-{u}"] for [BROADCAST], where [u] is the
    UUID that this start draws from the random source, advancing it. *)
Theorem EventHandler_start_queue_name
    (self : EventHandler) (srv_ctx : gmap string pyval) (w : World) :
  (py_is (handler_type self) SERVICE_POOL = true →
   ∀ dest, srv_ctx !! "name" = Some (PyStr dest) →
     started_queue_name (EventHandler_start self srv_ctx w).1
     = Some ("evt-" +:+ service_name self +:+ "-" +:+ event_type self
             +:+ "-" +:+ dest))
  ∧ (py_is (handler_type self) SINGLETON = true →
     started_queue_name (EventHandler_start self srv_ctx w).1
     = Some ("evt-" +:+ service_name self +:+ "-" +:+ event_type self))
  ∧ (py_is (handler_type self) BROADCAST = true →
     started_queue_name (EventHandler_start self srv_ctx w).1
     = Some ("evt-" +:+ service_name self +:+ "-" +:+ event_type self
             +:+ "-" +:+ UUID_str (next_uuid w))
     ∧ draws (EventHandler_start self srv_ctx w).2 = S (draws w)).
Proof.
  split; [|split].
  - intros Hsp dest Hdest.
    by rewrite (started_name_service_pool _ _ w _ Hsp Hdest).
  - apply started_name_singleton.
  - apply started_name_broadcast.
Qed.

Lemma EventHandler_start_queue_name_witness :
  started_queue_name
    (EventHandler_start (EventHandler_init "src" "hello" SERVICE_POOL true false)
       listener_ctx sample_world).1
  = Some "evt-src-hello-listener"
  ∧ started_queue_name
      (EventHandler_start (EventHandler_init "src" "hello" SINGLETON true false)
         listener_ctx sample_world).1
    = Some "evt-src-hello"
  ∧ started_queue_name
      (EventHandler_start (EventHandler_init "src" "hello" BROADCAST false false)
         listener_ctx sample_world).1
    = Some "evt-src-hello-01234567-89ab-4def-8123-456789abcdef".
Proof.
  split; [|split].
  - exact (proj1 (EventHandler_start_queue_name
             (EventHandler_init "src" "hello" SERVICE_POOL true false)
             listener_ctx sample_world) eq_refl "listener" eq_refl).
  - exact (proj1 (proj2 (EventHandler_start_queue_name
             (EventHandler_init "src" "hello" SINGLETON true false)
             listener_ctx sample_world)) eq_refl).
  - exact (proj1 (proj2 (proj2 (EventHandler_start_queue_name
             (EventHandler_init "src" "hello" BROADCAST false false)
             listener_ctx sample_world)) eq_refl)).
Defined.

(** C5: a registration whose handler type is one of the three constants
    reaches the bound state when started (a [SERVICE_POOL] one needs the
    container's ["name"]): [start] returns, the registration holds a queue
    and that queue has been declared.  Whenever [start] returns, the queue
    is bound to [get_event_exchange] of the source service, routed by the
    registration's [event_type], durable whatever the configuration, and
    auto-deleted exactly when delivery is not reliable. *)
Theorem EventHandler_start_queue_binding
    (self : EventHandler) (srv_ctx : gmap string pyval) (w : World) :
  (is_sentinel (handler_type self) = true →
   (py_is (handler_type self) SERVICE_POOL = true →
    is_Some (srv_ctx !! "name")) →
   ∃ self' w' q,
     EventHandler_start self srv_ctx w = (Ok self', w')
     ∧ queue self' = Some q
     ∧ declared w' = (declared w ++ [q])%list
     ∧ queue_exchange q = get_event_exchange (service_name self)
     ∧ queue_routing_key q = event_type self
     ∧ queue_durable q = true
     ∧ queue_auto_delete q = negb (reliable_delivery self))
  ∧ (∀ self' w',
       EventHandler_start self srv_ctx w = (Ok self', w') →
       ∃ q, queue self' = Some q
            ∧ declared w' = (declared w ++ [q])%list
            ∧ queue_exchange q = get_event_exchange (service_name self)
            ∧ queue_routing_key q = event_type self
            ∧ queue_durable q = true
            ∧ queue_auto_delete q = negb (reliable_delivery self)).
Proof.
  split.
  - unfold is_sentinel. intros Hs Hname.
    destruct (py_is (handler_type self) SERVICE_POOL) eqn:Hsp.
    + destruct (Hname eq_refl) as [dest Hdest].
      rewrite (EventHandler_start_bound _ _ _ _ _
                 (derive_queue_name_service_pool _ _ w _ Hsp Hdest)).
      do 3 eexists. by split_and!.
    + destruct (py_is (handler_type self) SINGLETON) eqn:Hsi.
      * rewrite (EventHandler_start_bound _ _ _ _ _
                   (derive_queue_name_singleton _ srv_ctx w Hsi)).
        do 3 eexists. by split_and!.
      * simpl in Hs.
        rewrite (EventHandler_start_bound _ _ _ _ _
                   (derive_queue_name_broadcast _ srv_ctx w Hs)).
        do 3 eexists. by split_and!.
  - intros self' w'.
    destruct (derive_queue_name self srv_ctx w) as [[[name|]|e] w1] eqn:Hd.
    + rewrite (EventHandler_start_bound _ _ _ _ _ Hd). intros [= <- <-].
      apply derive_queue_name_world in Hd as (_ & _ & Hdecl & _).
      eexists. split; [reflexivity|]. simpl. rewrite Hdecl. done.
    + by rewrite (EventHandler_start_unbound _ _ _ _ Hd).
    + by rewrite (EventHandler_start_raise _ _ _ _ _ Hd).
Qed.

Lemma EventHandler_start_queue_binding_witness :
  ∃ self' w' q,
    EventHandler_start
      (EventHandler_init "src" "hello" SERVICE_POOL false false)
      listener_ctx sample_world
    = (Ok self', w')
    ∧ queue self' = Some q
    ∧ declared w' = (declared sample_world ++ [q])%list
    ∧ queue_exchange q = get_event_exchange "src"
    ∧ queue_routing_key q = "hello"
    ∧ queue_durable q = true
    ∧ queue_auto_delete q = true.
Proof.
  refine (proj1 (EventHandler_start_queue_binding
                   (EventHandler_init "src" "hello" SERVICE_POOL false false)
                   listener_ctx sample_world) eq_refl _).
  intros _. exists (PyStr "listener"). reflexivity.
Defined.

(** The queue of that start, computed. *)
Example EventHandler_start_pooled_unreliable :
  EventHandler_start
    (EventHandler_init "src" "hello" SERVICE_POOL false false)
    listener_ctx sample_world
  = (Ok (set_queue (EventHandler_init "src" "hello" SERVICE_POOL false false)
           (mkQueue "evt-src-hello-listener" (get_event_exchange "src")
              "hello" true true)),
     mkWorld (entropy sample_world) 0
       [mkQueue "evt-src-hello-listener" (get_event_exchange "src")
          "hello" true true] []).
Proof. reflexivity. Qed.

(** C10: [start] binds a queue name only when [handler_type] is, by
    identity, one of [SERVICE_POOL], [SINGLETON] and [BROADCAST].  For any
    other object, a string equal to one of them included, no branch binds
    the name and [start] raises on reading it, although [event_handler]
    accepted the object whatever the other arguments. *)
Theorem EventHandler_start_requires_sentinel
    (self : EventHandler) (srv_ctx : gmap string pyval) (w : World) :
  (∀ name w', derive_queue_name self srv_ctx w = (Ok (Some name), w') →
     is_sentinel (handler_type self) = true)
  ∧ (∀ self' w', EventHandler_start self srv_ctx w = (Ok self', w') →
     is_sentinel (handler_type self) = true)
  ∧ (is_sentinel (handler_type self) = false →
     EventHandler_start self srv_ctx w
       = (Raise (UnboundLocalError "queue_name"), w)
     ∧ ∀ sn et rd roe,
         event_handler sn et (handler_type self) rd roe
         = Ok (EventHandler_init sn et (handler_type self) rd roe)).
Proof.
  split; [|split].
  - intros name w' Hd.
    destruct (is_sentinel (handler_type self)) eqn:Hs; [done|].
    by rewrite (derive_queue_name_other _ srv_ctx w Hs) in Hd.
  - intros self' w' Hst.
    destruct (is_sentinel (handler_type self)) eqn:Hs; [done|].
    by rewrite (EventHandler_start_unbound _ _ _ _
                  (derive_queue_name_other _ srv_ctx w Hs)) in Hst.
  - intros Hs. split.
    + apply EventHandler_start_unbound. by apply derive_queue_name_other.
    + intros sn et rd roe. unfold event_handler.
      unfold is_sentinel in Hs.
      destruct (py_is (handler_type self) BROADCAST).
      * by rewrite orb_true_r in Hs.
      * by rewrite andb_false_r.
Qed.

Lemma EventHandler_start_requires_sentinel_witness :
  py_eq broadcast_lookalike BROADCAST = true
  ∧ py_is broadcast_lookalike BROADCAST = false
  ∧ event_handler "src" "hello" broadcast_lookalike true false
    = Ok (EventHandler_init "src" "hello" broadcast_lookalike true false)
  ∧ EventHandler_start
      (EventHandler_init "src" "hello" broadcast_lookalike true false)
      listener_ctx sample_world
    = (Raise (UnboundLocalError "queue_name"), sample_world).
Proof.
  destruct (EventHandler_start_requires_sentinel
              (EventHandler_init "src" "hello" broadcast_lookalike true false)
              listener_ctx sample_world) as (_ & _ & H).
  destruct (H eq_refl) as [Hstart Hreg].
  split_and!;
    [reflexivity | reflexivity
    | exact (Hreg "src" "hello" true false) | exact Hstart].
Defined.

Lemma EventMeta_new_checks_own_type_witness :
  EventMeta_new "NoType" [PyClass "Event" [object] Event_namespace] ∅
    = Raise (EventTypeMissing "NoType")
  ∧ class_getattr "type" (PyClass "NoType" [PyClass "Event" [object] Event_namespace] ∅)
    = Some (PyStr "Event")
  ∧ EventMeta_new "Long" [object] {[ "type" := PyStr (string_repeat "a" 256) ]}
    = Raise (EventTypeTooLong (string_repeat "a" 256))
  ∧ EventMeta_new "Edge" [object] {[ "type" := PyStr (string_repeat "a" 255) ]}
    = Ok (PyClass "Edge" [object] {[ "type" := PyStr (string_repeat "a" 255) ]})
  ∧ getattr (Event_call (PyClass "Spam" [object] {[ "type" := PyStr "spam.ham" ]})
               (PyStr "ham and eggs")) "type"
    = Ok (PyStr "spam.ham").
Proof.
  split_and!.
  - exact (proj1 (EventMeta_new_checks_own_type "NoType"
             [PyClass "Event" [object] Event_namespace] ∅) eq_refl).
  - reflexivity.
  - refine (proj1 (proj2 (EventMeta_new_checks_own_type "Long" [object]
             {[ "type" := PyStr (string_repeat "a" 256) ]})) _ eq_refl _).
    vm_compute. reflexivity.
  - refine (proj1 (proj2 (proj2 (EventMeta_new_checks_own_type "Edge" [object]
             {[ "type" := PyStr (string_repeat "a" 255) ]})) _ eq_refl _)).
    vm_compute. reflexivity.
  - refine (proj1 (proj2 (proj2 (proj2 (EventMeta_new_checks_own_type "Spam"
             [object] {[ "type" := PyStr "spam.ham" ]})) _ eq_refl _)
             (PyStr "ham and eggs"))).
    vm_compute. lia.
Defined.

(** [Event] itself passes its metaclass. *)
Example Event_defined :
  Event = Ok (PyClass "Event" [object] Event_namespace).
Proof. reflexivity. Qed.

(** ** Dispatching *)

Lemma EventDispatcher_start_spec self srv_ctx name w :
  srv_ctx !! "name" = Some name →
  EventDispatcher_start self srv_ctx w
  = (Ok (mkEventDispatcher (Some (get_event_exchange (py_str name)))), w).
Proof. intros H. unfold EventDispatcher_start. run_M. by rewrite H. Qed.

Lemma EventDispatcher_call_spec self evt data type w :
  getattr evt "data" = Ok data →
  getattr evt "type" = Ok type →
  EventDispatcher_call self evt w
  = (Ok tt,
     mkWorld (entropy w) (draws w) (declared w)
       (outbox w ++ [mkPublication (dispatcher_exchange self) data type])).
Proof.
  intros Hd Ht. unfold EventDispatcher_call, Publisher_call. run_M.
  by rewrite Hd, Ht.
Qed.

(** A dispatch adds at most one publication, on the exchange held by the
    dispatcher, and touches nothing else. *)
Lemma EventDispatcher_call_world self evt w r w' :
  EventDispatcher_call self evt w = (r, w') →
  entropy w' = entropy w ∧ draws w' = draws w ∧ declared w' = declared w
  ∧ ∃ pubs, outbox w' = (outbox w ++ pubs)%list
            ∧ Forall (λ p, pub_exchange p = dispatcher_exchange self) pubs
            ∧ (r = Ok tt → length pubs = 1).
Proof.
  unfold EventDispatcher_call, Publisher_call. run_M.
  destruct (getattr evt "data") as [data|e]; simpl.
  - destruct (getattr evt "type") as [type|e]; simpl; intros [= <- <-]; simpl;
      split_and!; try done.
    + eexists. split; [reflexivity|]. split; [|done].
      by repeat constructor.
    + exists []. rewrite app_nil_r. by split_and!.
  - intros [= <- <-]. split_and!; try done.
    exists []. rewrite app_nil_r. by split_and!.
Qed.

Lemma dispatch_each_world self evts w r w' :
  dispatch_each self evts w = (r, w') →
  ∃ pubs, outbox w' = (outbox w ++ pubs)%list
          ∧ Forall (λ p, pub_exchange p = dispatcher_exchange self) pubs
          ∧ (r = Ok tt → length pubs = length evts).
Proof.
  revert w. induction evts as [|evt evts IH]; intros w; simpl.
  - unfold mret, M_ret, ret. intros [= <- <-].
    exists []. rewrite app_nil_r. by split_and!.
  - unfold mbind, M_bind, bind.
    destruct (EventDispatcher_call self evt w) as [[[]|e] w1] eqn:Hcall.
    + intros Hrest.
      apply EventDispatcher_call_world in Hcall
        as (_ & _ & _ & pubs1 & Hout1 & Hall1 & Hlen1).
      apply IH in Hrest as (pubs2 & Hout2 & Hall2 & Hlen2).
      exists (pubs1 ++ pubs2)%list. split_and!.
      * by rewrite Hout2, Hout1, app_assoc.
      * by apply Forall_app.
      * intros ->. rewrite length_app, Hlen1, Hlen2; done.
    + intros [= <- <-].
      apply EventDispatcher_call_world in Hcall
        as (_ & _ & _ & pubs1 & Hout1 & Hall1 & _).
      exists pubs1. by split_and!.
Qed.

(** C7: a dispatcher started in a container named [name] holds, from [start]
    on, the exchange [get_event_exchange name]; [start] touches nothing else.
    Dispatching an event built from a kind that [EventMeta] accepted publishes
    one message whose payload is the event's [data] and whose routing key is
    the kind's [type], on that exchange.  Over any run of dispatches every
    publication is on that one exchange: [__call__] reads the exchange that
    [start] stored and never derives it again. *)
Theorem EventDispatcher_publishes_on_own_exchange
    (srv_ctx : gmap string pyval) (name : string) (w0 : World)
    (self : EventDispatcher) (w1 : World) :
  srv_ctx !! "name" = Some (PyStr name) →
  EventDispatcher_start EventDispatcher_init srv_ctx w0 = (Ok self, w1) →
  w1 = w0
  ∧ dispatcher_exchange self = Some (get_event_exchange name)
  ∧ (∀ cname bases dct cls data w,
       EventMeta_new cname bases dct = Ok cls →
       ∃ t, dct !! "type" = Some (PyStr t)
            ∧ EventDispatcher_call self (Event_call cls data) w
              = (Ok tt,
                 mkWorld (entropy w) (draws w) (declared w)
                   (outbox w ++
                    [mkPublication (Some (get_event_exchange name))
                       data (PyStr t)])))
  ∧ (∀ evts w r w',
       dispatch_each self evts w = (r, w') →
       ∃ pubs, outbox w' = (outbox w ++ pubs)%list
               ∧ Forall (λ p, pub_exchange p = Some (get_event_exchange name))
                   pubs
               ∧ (r = Ok tt → length pubs = length evts)).
Proof.
  intros Hname Hstart.
  rewrite (EventDispatcher_start_spec _ _ _ _ Hname) in Hstart.
  injection Hstart as <- <-. simpl. split_and!; try done.
  - intros cname bases dct cls data w Hnew.
    apply EventMeta_new_ok_inv in Hnew as (-> & t & Ht & _).
    exists t. split; [done|].
    apply (EventDispatcher_call_spec
             (mkEventDispatcher (Some (get_event_exchange name)))).
    + unfold getattr, Event_call. simpl. by rewrite lookup_singleton_eq.
    + unfold getattr, Event_call. simpl.
      rewrite lookup_singleton_ne by done. by rewrite Ht.
  - intros evts w r w' Hrun.
    by apply dispatch_each_world in Hrun.
Qed.

(** Before [start] there is no exchange to publish on: [__call__] does not
    resolve one by itself. *)
Lemma EventDispatcher_call_unstarted evt data type w :
  getattr evt "data" = Ok data →
  getattr evt "type" = Ok type →
  outbox (EventDispatcher_call EventDispatcher_init evt w).2
  = (outbox w ++ [mkPublication None data type])%list.
Proof.
  intros Hd Ht.
  by rewrite (EventDispatcher_call_spec _ _ _ _ _ Hd Ht).
Qed.

Lemma EventDispatcher_publishes_on_own_exchange_witness :
  ∃ self,
    EventDispatcher_start EventDispatcher_init raiser_ctx sample_world
    = (Ok self, sample_world)
    ∧ outbox (EventDispatcher_call self
                (Event_call Spam (PyStr "ham and eggs")) sample_world).2
      = [mkPublication (Some (get_event_exchange "event_raiser"))
           (PyStr "ham and eggs") (PyStr "spam.ham")].
Proof.
  eexists. split; [reflexivity|].
  destruct (EventDispatcher_publishes_on_own_exchange
              raiser_ctx "event_raiser" sample_world _ _ eq_refl eq_refl)
    as (_ & _ & Hcall & _).
  destruct (Hcall "Spam" [object] Spam_namespace Spam
              (PyStr "ham and eggs") sample_world eq_refl) as (t & Ht & Hpub).
  injection Ht as <-.
  exact (f_equal (λ rw : result unit * World, outbox rw.2) Hpub).
Defined.

(** ** The call-id stack *)

Lemma truncate_stack_suffix cap inherited :
  ∃ dropped, inherited = (dropped ++ truncate_stack cap inherited)%list.
Proof.
  unfold truncate_stack. destruct cap as [cap|].
  - destruct (cap <? length inherited).
    + exists (take (length inherited - cap) inherited).
      by rewrite take_drop.
    + by exists [].
  - by exists [].
Qed.

Lemma truncate_stack_length cap inherited :
  length (truncate_stack (Some cap) inherited) = min cap (length inherited).
Proof.
  unfold truncate_stack.
  destruct (cap <? length inherited) eqn:H.
  - apply Nat.ltb_lt in H. rewrite length_drop. lia.
  - apply Nat.ltb_ge in H. lia.
Qed.

(** Without a cap, and with an inherited stack within the cap, nothing is
    dropped. *)
Lemma truncate_stack_id cap inherited :
  from_option (λ cap, length inherited ≤ cap) True cap →
  truncate_stack cap inherited = inherited.
Proof.
  unfold truncate_stack. destruct cap as [cap|]; simpl; [|done].
  intros H. apply Nat.ltb_ge in H. by rewrite H.
Qed.

(** C3: with a cap configured and an inherited stack, read from
    [data['call_id_stack']], that is longer than the cap, the stack of the new
    context is the last [cap] inherited entries followed by the context's own
    call id, [cap + 1] entries in all; with no cap configured it is the whole
    inherited stack followed by the own call id. *)
Theorem WorkerContext_stack_capped
    (container : Container) (entrypoint : string)
    (d : gmap string (list string)) (inherited : list string) (seq : nat) :
  d !! "call_id_stack" = Some inherited →
  (∀ cap,
     container_config container !! PARENT_CALLS_CONFIG_KEY = Some cap →
     cap < length inherited →
     ∃ dropped kept,
       inherited = (dropped ++ kept)%list
       ∧ length kept = cap
       ∧ call_id_stack (WorkerContext_new container entrypoint (Some d) seq).1
         = (kept ++
            [call_id (WorkerContext_new container entrypoint (Some d) seq).1])%list
       ∧ length (call_id_stack
                   (WorkerContext_new container entrypoint (Some d) seq).1)
         = cap + 1)
  ∧ (container_config container !! PARENT_CALLS_CONFIG_KEY = None →
     call_id_stack (WorkerContext_new container entrypoint (Some d) seq).1
     = (inherited ++
        [call_id (WorkerContext_new container entrypoint (Some d) seq).1])%list).
Proof.
  intros Hd. unfold WorkerContext_new, inherited_stack. rewrite Hd. simpl.
  split.
  - intros cap -> Hlen.
    destruct (truncate_stack_suffix (Some cap) inherited) as [dropped Hsuf].
    exists dropped, (truncate_stack (Some cap) inherited).
    pose proof (truncate_stack_length cap inherited) as Hk.
    split_and!; [done | lia | done |].
    rewrite length_app, Hk. simpl. lia.
  - by intros ->.
Qed.

(** The own call id always closes the stack. *)
Lemma WorkerContext_own_id_last container entrypoint data seq :
  last (call_id_stack (WorkerContext_new container entrypoint data seq).1)
  = Some (call_id (WorkerContext_new container entrypoint data seq).1).
Proof. unfold WorkerContext_new. simpl. apply last_snoc. Qed.

(** C9: [immediate_parent_call_id] is the last entry of the stack as it was
    passed in [data['call_id_stack']], whatever the cap; it is absent when no
    data, no stack or an empty stack was passed. *)
Theorem immediate_parent_is_last_inherited
    (container : Container) (entrypoint : string)
    (data : option (gmap string (list string))) (seq : nat) :
  (∀ d older parent,
     data = Some d → d !! "call_id_stack" = Some (older ++ [parent])%list →
     immediate_parent_call_id
       (WorkerContext_new container entrypoint data seq).1 = Some parent)
  ∧ (data = None →
     immediate_parent_call_id
       (WorkerContext_new container entrypoint data seq).1 = None)
  ∧ (∀ d, data = Some d → d !! "call_id_stack" = None →
     immediate_parent_call_id
       (WorkerContext_new container entrypoint data seq).1 = None)
  ∧ (∀ d, data = Some d → d !! "call_id_stack" = Some [] →
     immediate_parent_call_id
       (WorkerContext_new container entrypoint data seq).1 = None).
Proof.
  unfold WorkerContext_new, inherited_stack. simpl. split_and!.
  - intros d older parent -> ->. simpl. apply last_snoc.
  - by intros ->.
  - by intros d -> ->.
  - by intros d -> ->.
Qed.

Lemma WorkerContext_stack_capped_witness :
  (∃ dropped kept,
     many_ids 100 = (dropped ++ kept)%list
     ∧ length kept = 1
     ∧ call_id_stack
         (WorkerContext_new baz_capped "long"
            (Some (stack_data (many_ids 100))) 0).1
       = (kept ++ ["baz.long.0"])%list
     ∧ length (call_id_stack
                 (WorkerContext_new baz_capped "long"
                    (Some (stack_data (many_ids 100))) 0).1)
       = 1 + 1)
  ∧ call_id_stack
      (WorkerContext_new baz "long" (Some (stack_data (many_ids 10))) 2).1
    = (many_ids 10 ++ ["baz.long.2"])%list.
Proof.
  split.
  - refine (proj1 (WorkerContext_stack_capped baz_capped "long"
                     (stack_data (many_ids 100)) (many_ids 100) 0 eq_refl)
              1 eq_refl _).
    vm_compute. lia.
  - exact (proj2 (WorkerContext_stack_capped baz "long"
                    (stack_data (many_ids 10)) (many_ids 10) 2 eq_refl)
             eq_refl).
Defined.

Lemma immediate_parent_is_last_inherited_witness :
  immediate_parent_call_id
    (WorkerContext_new (mkContainer "foo" ∅) "bar"
       (Some (stack_data ["parent.method.1"])) 0).1
  = Some "parent.method.1"
  ∧ immediate_parent_call_id
      (WorkerContext_new (mkContainer "foo" ∅) "bar" (Some ∅) 0).1
    = None
  ∧ immediate_parent_call_id
      (WorkerContext_new baz_capped "long" (Some (stack_data (many_ids 100))) 0).1
    = Some "99".
Proof.
  split_and!.
  - exact (proj1 (immediate_parent_is_last_inherited (mkContainer "foo" ∅) "bar"
                    (Some (stack_data ["parent.method.1"])) 0)
             (stack_data ["parent.method.1"]) [] "parent.method.1"
             eq_refl eq_refl).
  - exact (proj1 (proj2 (proj2 (immediate_parent_is_last_inherited
                    (mkContainer "foo" ∅) "bar" (Some ∅) 0)))
             ∅ eq_refl eq_refl).
  - exact (proj1 (immediate_parent_is_last_inherited baz_capped "long"
                    (Some (stack_data (many_ids 100))) 0)
             (stack_data (many_ids 100)) (many_ids 99) "99"
             eq_refl eq_refl).
Defined.

(** The expectations of [test_call_id_stack.py] on the model. *)
Example test_worker_context_gets_stack :
  let '(c0, seq1) := WorkerContext_new baz "bar" None 0 in
  let '(c1, seq2) :=
    WorkerContext_new baz "foo" (Some (stack_data (call_id_stack c0))) seq1 in
  let '(c2, _) :=
    WorkerContext_new baz "long" (Some (stack_data (many_ids 10))) seq2 in
  call_id c0 = "baz.bar.0"
  ∧ call_id_stack c0 = ["baz.bar.0"]
  ∧ call_id c1 = "baz.foo.1"
  ∧ call_id_stack c1 = ["baz.bar.0"; "baz.foo.1"]
  ∧ call_id_stack c2 = (many_ids 10 ++ ["baz.long.2"])%list.
Proof. by vm_compute. Qed.

Example test_short_call_stack :
  call_id_stack
    (WorkerContext_new baz_capped "long" (Some (stack_data (many_ids 100))) 0).1
  = ["99"; "baz.long.0"].
Proof. by vm_compute. Qed.

(** ** Queue names across registrations *)

(** Two names that end in the text of different UUIDs differ, whatever
    precedes the UUIDs. *)
Lemma uuid_suffix_distinct (p1 p2 : string) (u1 u2 : N) :
  (u1 < 2 ^ 128)%N → (u2 < 2 ^ 128)%N → u1 ≠ u2 →
  p1 +:+ UUID_str u1 ≠ p2 +:+ UUID_str u2.
Proof.
  intros H1 H2 Hne Heq.
  apply string_app_inj_suffix in Heq as [_ Heq].
  - by apply Hne, UUID_str_inj.
  - by rewrite !UUID_str_length.
Qed.

Lemma broadcast_name_assoc (sn et u : string) :
  "evt-" +:+ sn +:+ "-" +:+ et +:+ "-" +:+ u
  = ("evt-" +:+ sn +:+ "-" +:+ et +:+ "-") +:+ u.
Proof. by rewrite !string_app_assoc. Qed.

(** With equal parameters the UUID is all that tells two broadcast queues
    apart: the names coincide exactly when the UUIDs do. *)
Lemma broadcast_names_equal_iff self ctx1 ctx2 w1 w2 :
  py_is (handler_type self) BROADCAST = true →
  started_queue_name (EventHandler_start self ctx1 w1).1
  = started_queue_name (EventHandler_start self ctx2 w2).1
  ↔ next_uuid w1 = next_uuid w2.
Proof.
  intros Hbc.
  destruct (started_name_broadcast self ctx1 w1 Hbc) as [-> _].
  destruct (started_name_broadcast self ctx2 w2 Hbc) as [-> _].
  split.
  - intros H. apply (inj Some) in H. rewrite !broadcast_name_assoc in H.
    apply string_app_inj_suffix in H as [_ H].
    + apply UUID_str_inj in H; [done|apply uuid_of_bytes_lt..].
    + by rewrite !UUID_str_length.
  - by intros ->.
Qed.

(** C8: for a fixed source service, event type and destination container
    name, every start of a [SERVICE_POOL] registration yields one and the
    same queue name, and so does every start of a [SINGLETON] registration,
    whatever the other parameters, the context and the world.  Two starts of
    [BROADCAST] registrations, with the same parameters or not, yield
    different queue names as soon as the UUIDs they draw differ. *)
Theorem queue_name_determinism
    (sn et dest : string) (rd1 roe1 rd2 roe2 : bool)
    (ctx1 ctx2 : gmap string pyval) (w1 w2 : World) :
  (ctx1 !! "name" = Some (PyStr dest) → ctx2 !! "name" = Some (PyStr dest) →
   started_queue_name
     (EventHandler_start (EventHandler_init sn et SERVICE_POOL rd1 roe1)
        ctx1 w1).1
   = started_queue_name
       (EventHandler_start (EventHandler_init sn et SERVICE_POOL rd2 roe2)
          ctx2 w2).1
   ∧ is_Some (started_queue_name
                (EventHandler_start
                   (EventHandler_init sn et SERVICE_POOL rd1 roe1) ctx1 w1).1))
  ∧ (started_queue_name
       (EventHandler_start (EventHandler_init sn et SINGLETON rd1 roe1)
          ctx1 w1).1
     = started_queue_name
         (EventHandler_start (EventHandler_init sn et SINGLETON rd2 roe2)
            ctx2 w2).1
     ∧ is_Some (started_queue_name
                  (EventHandler_start
                     (EventHandler_init sn et SINGLETON rd1 roe1) ctx1 w1).1))
  ∧ (∀ sn' et',
       next_uuid w1 ≠ next_uuid w2 →
       ∃ name1 name2,
         started_queue_name
           (EventHandler_start (EventHandler_init sn et BROADCAST rd1 roe1)
              ctx1 w1).1 = Some name1
         ∧ started_queue_name
             (EventHandler_start (EventHandler_init sn' et' BROADCAST rd2 roe2)
                ctx2 w2).1 = Some name2
         ∧ name1 ≠ name2).
Proof.
  split; [|split].
  - intros H1 H2.
    rewrite (started_name_service_pool
               (EventHandler_init sn et SERVICE_POOL rd1 roe1) _ w1 _
               eq_refl H1).
    rewrite (started_name_service_pool
               (EventHandler_init sn et SERVICE_POOL rd2 roe2) _ w2 _
               eq_refl H2).
    done.
  - rewrite (started_name_singleton
               (EventHandler_init sn et SINGLETON rd1 roe1) ctx1 w1 eq_refl).
    rewrite (started_name_singleton
               (EventHandler_init sn et SINGLETON rd2 roe2) ctx2 w2 eq_refl).
    done.
  - intros sn' et' Hne.
    destruct (started_name_broadcast
                (EventHandler_init sn et BROADCAST rd1 roe1) ctx1 w1 eq_refl)
      as [-> _].
    destruct (started_name_broadcast
                (EventHandler_init sn' et' BROADCAST rd2 roe2) ctx2 w2 eq_refl)
      as [-> _].
    do 2 eexists. split; [reflexivity|]. split; [reflexivity|].
    simpl. rewrite (broadcast_name_assoc sn), (broadcast_name_assoc sn').
    apply uuid_suffix_distinct; [apply uuid_of_bytes_lt..|done].
Qed.

Lemma queue_name_determinism_witness :
  (started_queue_name
     (EventHandler_start (EventHandler_init "src" "hello" SERVICE_POOL true false)
        listener_ctx sample_world).1
   = started_queue_name
       (EventHandler_start (EventHandler_init "src" "hello" SERVICE_POOL false true)
          listener_ctx world_after_start).1
   ∧ is_Some (started_queue_name
                (EventHandler_start
                   (EventHandler_init "src" "hello" SERVICE_POOL true false)
                   listener_ctx sample_world).1))
  ∧ ∃ name1 name2,
      started_queue_name
        (EventHandler_start broadcast_hello listener_ctx sample_world).1
      = Some name1
      ∧ started_queue_name
          (EventHandler_start broadcast_hello listener_ctx world_after_start).1
        = Some name2
      ∧ name1 ≠ name2.
Proof.
  split.
  - exact (proj1 (queue_name_determinism "src" "hello" "listener"
                    true false false true listener_ctx listener_ctx
                    sample_world world_after_start)
             eq_refl eq_refl).
  - refine (proj2 (proj2 (queue_name_determinism "src" "hello" "listener"
                            false false false false listener_ctx listener_ctx
                            sample_world world_after_start))
              "src" "hello" _).
    vm_compute. discriminate.
Defined.

(** The two starts above, run: the second queue carries the next UUID. *)
Example broadcast_started_twice :
  started_queue_name
    (EventHandler_start broadcast_hello listener_ctx sample_world).1
  = Some "evt-src-hello-01234567-89ab-4def-8123-456789abcdef"
  ∧ started_queue_name
      (EventHandler_start broadcast_hello listener_ctx world_after_start).1
    = Some "evt-src-hello-01234567-89ab-4def-8123-456789abcdf0".
Proof. by vm_compute. Qed.

(** * Further properties of [events.py] *)

(** ** Exchanges *)

(** X1: two services have the same event exchange, or event exchanges of the
    same name, only if they are the same service. *)
Theorem get_event_exchange_injective (s1 s2 : string) :
  (get_event_exchange s1 = get_event_exchange s2 ↔ s1 = s2)
  ∧ (exchange_name (get_event_exchange s1)
       = exchange_name (get_event_exchange s2) ↔ s1 = s2).
Proof.
  split; split.
  - apply get_event_exchange_inj.
  - by intros ->.
  - unfold get_event_exchange. simpl. intros H.
    by apply string_app_inj_suffix in H as [-> _].
  - by intros ->.
Qed.

(** ** Outcomes and footprint of [EventHandler.start] *)

(** A handler type takes at most one branch of the chain. *)
Lemma handler_type_cases (ht : pyobj) :
  (py_is ht SERVICE_POOL = true ∧ py_is ht SINGLETON = false
   ∧ py_is ht BROADCAST = false)
  ∨ (py_is ht SERVICE_POOL = false ∧ py_is ht SINGLETON = true
     ∧ py_is ht BROADCAST = false)
  ∨ (py_is ht SERVICE_POOL = false ∧ py_is ht SINGLETON = false
     ∧ py_is ht BROADCAST = true)
  ∨ (py_is ht SERVICE_POOL = false ∧ py_is ht SINGLETON = false
     ∧ py_is ht BROADCAST = false).
Proof.
  unfold py_is. simpl.
  repeat case_bool_decide; try tauto; congruence.
Qed.

Lemma derive_queue_name_missing_name self srv_ctx w :
  py_is (handler_type self) SERVICE_POOL = true →
  srv_ctx !! "name" = None →
  derive_queue_name self srv_ctx w = (Raise (KeyError "name"), w).
Proof.
  intros Hsp Hname. unfold derive_queue_name. rewrite Hsp.
  run_M. by rewrite Hname.
Qed.

Lemma is_sentinel_false ht :
  py_is ht SERVICE_POOL = false → py_is ht SINGLETON = false →
  py_is ht BROADCAST = false → is_sentinel ht = false.
Proof. unfold is_sentinel. by intros -> -> ->. Qed.

(** Every way [start] can end, with the world it leaves. *)
Lemma EventHandler_start_cases self srv_ctx w :
  let q name :=
    mkQueue name (get_event_exchange (service_name self)) (event_type self)
      true (negb (reliable_delivery self)) in
  (∃ dest,
     py_is (handler_type self) SERVICE_POOL = true
     ∧ srv_ctx !! "name" = Some dest
     ∧ EventHandler_start self srv_ctx w
       = (Ok (set_queue self
                (q ("evt-" +:+ service_name self +:+ "-" +:+ event_type self
                    +:+ "-" +:+ py_str dest))),
          mkWorld (entropy w) (draws w)
            (declared w ++
             [q ("evt-" +:+ service_name self +:+ "-" +:+ event_type self
                 +:+ "-" +:+ py_str dest)])
            (outbox w)))
  ∨ (py_is (handler_type self) SERVICE_POOL = true
     ∧ srv_ctx !! "name" = None
     ∧ EventHandler_start self srv_ctx w = (Raise (KeyError "name"), w))
  ∨ (py_is (handler_type self) SINGLETON = true
     ∧ py_is (handler_type self) BROADCAST = false
     ∧ EventHandler_start self srv_ctx w
       = (Ok (set_queue self
                (q ("evt-" +:+ service_name self +:+ "-" +:+ event_type self))),
          mkWorld (entropy w) (draws w)
            (declared w ++
             [q ("evt-" +:+ service_name self +:+ "-" +:+ event_type self)])
            (outbox w)))
  ∨ (py_is (handler_type self) BROADCAST = true
     ∧ EventHandler_start self srv_ctx w
       = (Ok (set_queue self
                (q ("evt-" +:+ service_name self +:+ "-" +:+ event_type self
                    +:+ "-" +:+ UUID_str (next_uuid w)))),
          mkWorld (entropy w) (S (draws w))
            (declared w ++
             [q ("evt-" +:+ service_name self +:+ "-" +:+ event_type self
                 +:+ "-" +:+ UUID_str (next_uuid w))])
            (outbox w)))
  ∨ (is_sentinel (handler_type self) = false
     ∧ EventHandler_start self srv_ctx w
       = (Raise (UnboundLocalError "queue_name"), w)).
Proof.
  intros q.
  destruct (handler_type_cases (handler_type self))
    as [(Hsp & Hsi & Hbc)|[(Hsp & Hsi & Hbc)|[(Hsp & Hsi & Hbc)|(Hsp & Hsi & Hbc)]]].
  - destruct (srv_ctx !! "name") as [dest|] eqn:Hname.
    + left. exists dest. split_and!; try done.
      by rewrite (EventHandler_start_bound _ _ _ _ _
                    (derive_queue_name_service_pool _ _ w _ Hsp Hname)).
    + right; left. split_and!; try done.
      by apply EventHandler_start_raise, derive_queue_name_missing_name.
  - do 2 right; left. split_and!; try done.
    by rewrite (EventHandler_start_bound _ _ _ _ _
                  (derive_queue_name_singleton _ srv_ctx w Hsi)).
  - do 3 right; left. split; [done|].
    by rewrite (EventHandler_start_bound _ _ _ _ _
                  (derive_queue_name_broadcast _ srv_ctx w Hbc)).
  - do 4 right. split; [by apply is_sentinel_false|].
    by apply EventHandler_start_unbound, derive_queue_name_other,
      is_sentinel_false.
Qed.

(** X3: [start] returns exactly when [handler_type] is [SINGLETON] or
    [BROADCAST], or is [SERVICE_POOL] and the context has a ["name"].  A
    [SERVICE_POOL] start in a context without ["name"] raises
    [KeyError("name")]; the only other exception is the [UnboundLocalError]
    on [queue_name]; and a start that raises leaves the world as it was. *)
Theorem EventHandler_start_succeeds_iff
    (self : EventHandler) (srv_ctx : gmap string pyval) (w : World) :
  (is_ok (EventHandler_start self srv_ctx w).1 = true
   ↔ (py_is (handler_type self) SERVICE_POOL = true
      ∧ is_Some (srv_ctx !! "name"))
     ∨ py_is (handler_type self) SINGLETON = true
     ∨ py_is (handler_type self) BROADCAST = true)
  ∧ (py_is (handler_type self) SERVICE_POOL = true →
     srv_ctx !! "name" = None →
     EventHandler_start self srv_ctx w = (Raise (KeyError "name"), w))
  ∧ (∀ e w', EventHandler_start self srv_ctx w = (Raise e, w') →
       w' = w ∧ (e = KeyError "name" ∨ e = UnboundLocalError "queue_name")).
Proof.
  pose proof (EventHandler_start_cases self srv_ctx w) as Hcases.
  simpl in Hcases.
  destruct Hcases
    as [(dest & Hsp & Hname & ->)|[(Hsp & Hname & ->)|[(Hsi & Hbc & ->)
       |[(Hbc & ->)|(Hs & ->)]]]]; simpl.
  - split_and!; [|congruence|done].
    split; [|done]. intros _. left. split; [done|]. by rewrite Hname.
  - split_and!; [|done|by intros e w' [= <- <-]; auto].
    split; [done|]. intros [[_ [v Hv]]|[Hsi|Hbc]].
    + congruence.
    + by rewrite (py_is_exclusive _ _ _ (proj1 sentinels_distinct) Hsp) in Hsi.
    + by rewrite (py_is_exclusive _ _ _
                    (proj1 (proj2 sentinels_distinct)) Hsp) in Hbc.
  - split_and!; [|intros Hsp|done].
    + split; [|done]. intros _. by right; left.
    + by rewrite (py_is_exclusive _ _ _ (proj1 sentinels_distinct) Hsp) in Hsi.
  - split_and!; [|intros Hsp|done].
    + split; [|done]. intros _. by right; right.
    + by rewrite (py_is_exclusive _ _ _
                    (proj1 (proj2 sentinels_distinct)) Hsp) in Hbc.
  - unfold is_sentinel in Hs.
    apply orb_false_elim in Hs as [Hs Hbc].
    apply orb_false_elim in Hs as [Hsp Hsi].
    split_and!; [|congruence|by intros e w' [= <- <-]; auto].
    split; [done|]. intros [[? _]|[?|?]]; congruence.
Qed.

Lemma EventHandler_start_succeeds_iff_witness :
  EventHandler_start (EventHandler_init "src" "hello" SERVICE_POOL true false)
    ∅ sample_world
  = (Raise (KeyError "name"), sample_world)
  ∧ is_ok (EventHandler_start
             (EventHandler_init "src" "hello" SINGLETON true false)
             ∅ sample_world).1 = true.
Proof.
  split.
  - exact (proj1 (proj2 (EventHandler_start_succeeds_iff
                    (EventHandler_init "src" "hello" SERVICE_POOL true false)
                    ∅ sample_world)) eq_refl eq_refl).
  - apply (proj1 (EventHandler_start_succeeds_iff
                    (EventHandler_init "src" "hello" SINGLETON true false)
                    ∅ sample_world)).
    right; left. reflexivity.
Defined.

(** X5: [start] never publishes and never rewinds or replaces the random
    source.  When it returns, the registration keeps its five parameters,
    holds a queue, exactly that queue has been declared, and the random
    source has been read once for [BROADCAST] and not at all otherwise.  When
    it raises, the world is unchanged: nothing was declared and nothing was
    read. *)
Theorem EventHandler_start_footprint
    (self : EventHandler) (srv_ctx : gmap string pyval) (w : World)
    (r : result EventHandler) (w' : World) :
  EventHandler_start self srv_ctx w = (r, w') →
  entropy w' = entropy w
  ∧ outbox w' = outbox w
  ∧ match r with
    | Ok self' =>
        service_name self' = service_name self
        ∧ event_type self' = event_type self
        ∧ handler_type self' = handler_type self
        ∧ reliable_delivery self' = reliable_delivery self
        ∧ requeue_on_error self' = requeue_on_error self
        ∧ (∃ q, queue self' = Some q
                ∧ declared w' = (declared w ++ [q])%list)
        ∧ draws w'
          = draws w + (if py_is (handler_type self) BROADCAST then 1 else 0)
    | Raise _ => w' = w
    end.
Proof.
  pose proof (EventHandler_start_cases self srv_ctx w) as Hcases.
  simpl in Hcases.
  destruct Hcases
    as [(dest & Hsp & Hname & ->)|[(Hsp & Hname & ->)|[(Hsi & Hbc & ->)
       |[(Hbc & ->)|(Hs & ->)]]]]; intros [= <- <-]; simpl;
    split_and!; try done.
  - by eexists.
  - rewrite (py_is_exclusive _ _ _ (proj1 (proj2 sentinels_distinct)) Hsp).
    lia.
  - by eexists.
  - rewrite Hbc. lia.
  - by eexists.
  - rewrite Hbc. lia.
Qed.

Lemma EventHandler_start_footprint_witness :
  draws world_after_start = 1
  ∧ outbox world_after_start = []
  ∧ ∃ q, declared world_after_start = [q].
Proof.
  destruct (EventHandler_start_footprint broadcast_hello listener_ctx
              sample_world _ _ eq_refl)
    as (_ & Hout & _ & _ & _ & _ & _ & (q & _ & Hdecl) & Hdraws).
  split_and!; [exact Hdraws | exact Hout | exists q; exact Hdecl].
Defined.

(** X6: a [BROADCAST] registration that [event_handler] let through always
    starts, in any context, and its queue is both durable and auto-deleted:
    the check in [event_handler] leaves [reliable_delivery] false, which
    [start] turns into [auto_delete]. *)
Theorem accepted_broadcast_queue_auto_deleted
    (sn et : string) (ht : pyobj) (rd roe : bool) (self : EventHandler)
    (srv_ctx : gmap string pyval) (w : World) :
  event_handler sn et ht rd roe = Ok self →
  py_is ht BROADCAST = true →
  ∃ self' w' q,
    EventHandler_start self srv_ctx w = (Ok self', w')
    ∧ queue self' = Some q
    ∧ queue_auto_delete q = true
    ∧ queue_durable q = true.
Proof.
  unfold event_handler. intros Hreg Hbc. rewrite Hbc in Hreg.
  destruct rd; [done|]. injection Hreg as <-.
  rewrite (EventHandler_start_bound _ _ _ _ _
             (derive_queue_name_broadcast
                (EventHandler_init sn et ht false roe) srv_ctx w Hbc)).
  by do 3 eexists.
Qed.

Lemma accepted_broadcast_queue_auto_deleted_witness :
  ∃ self' w' q,
    EventHandler_start broadcast_hello ∅ sample_world = (Ok self', w')
    ∧ queue self' = Some q
    ∧ queue_auto_delete q = true
    ∧ queue_durable q = true.
Proof.
  exact (accepted_broadcast_queue_auto_deleted "src" "hello" BROADCAST
           false false broadcast_hello ∅ sample_world eq_refl eq_refl).
Defined.

(** ** Starting a registration again *)

Lemma derive_queue_name_set_queue self q srv_ctx w :
  derive_queue_name (set_queue self q) srv_ctx w
  = derive_queue_name self srv_ctx w.
Proof. reflexivity. Qed.

(** X9: starting a [SERVICE_POOL] or [SINGLETON] registration that has
    already been started, in the same context, gives back the same
    registration with the same queue, and declares that queue once more. *)
Theorem EventHandler_restart_keeps_shared_queue
    (self : EventHandler) (srv_ctx : gmap string pyval) (w : World)
    (self1 : EventHandler) (w1 w2 : World) :
  py_is (handler_type self) BROADCAST = false →
  EventHandler_start self srv_ctx w = (Ok self1, w1) →
  ∃ q, queue self1 = Some q
       ∧ EventHandler_start self1 srv_ctx w2
         = (Ok self1,
            mkWorld (entropy w2) (draws w2) (declared w2 ++ [q]) (outbox w2)).
Proof.
  intros Hnb Hstart.
  pose proof (EventHandler_start_cases self srv_ctx w) as Hcases.
  simpl in Hcases.
  destruct Hcases
    as [(dest & Hsp & Hname & Heq)|[(Hsp & Hname & Heq)|[(Hsi & Hbc & Heq)
       |[(Hbc & Heq)|(Hs & Heq)]]]]; rewrite Heq in Hstart; try done.
  - injection Hstart as <- <-. eexists. split; [reflexivity|].
    by rewrite (EventHandler_start_bound _ _ _ _ _
                  (derive_queue_name_service_pool
                     (set_queue self _) _ w2 _ Hsp Hname)).
  - injection Hstart as <- <-. eexists. split; [reflexivity|].
    by rewrite (EventHandler_start_bound _ _ _ _ _
                  (derive_queue_name_singleton
                     (set_queue self _) srv_ctx w2 Hsi)).
  - congruence.
Qed.

Lemma EventHandler_restart_keeps_shared_queue_witness :
  ∃ q, queue pooled_hello_started = Some q
       ∧ EventHandler_start pooled_hello_started listener_ctx world_after_start
         = (Ok pooled_hello_started,
            mkWorld (entropy world_after_start) (draws world_after_start)
              (declared world_after_start ++ [q]) (outbox world_after_start)).
Proof.
  exact (EventHandler_restart_keeps_shared_queue pooled_hello listener_ctx
           sample_world pooled_hello_started _ world_after_start
           eq_refl eq_refl).
Defined.

(** X10: starting a [BROADCAST] registration again draws another UUID: the
    registration now holds a queue named after the new UUID, the queue of the
    first start stays declared beside it, and the two names are the same only
    if the two UUIDs are. *)
Theorem EventHandler_restart_broadcast_renames
    (self : EventHandler) (srv_ctx : gmap string pyval) (w : World)
    (self1 : EventHandler) (w1 : World) :
  py_is (handler_type self) BROADCAST = true →
  EventHandler_start self srv_ctx w = (Ok self1, w1) →
  ∃ q1 q2 self2 w2,
    queue self1 = Some q1
    ∧ EventHandler_start self1 srv_ctx w1 = (Ok self2, w2)
    ∧ queue self2 = Some q2
    ∧ declared w2 = (declared w ++ [q1; q2])%list
    ∧ queue_name q2
      = "evt-" +:+ service_name self +:+ "-" +:+ event_type self
        +:+ "-" +:+ UUID_str (uuid_of_bytes (entropy w (S (draws w))))
    ∧ (queue_name q1 = queue_name q2
       ↔ next_uuid w = uuid_of_bytes (entropy w (S (draws w)))).
Proof.
  intros Hbc Hstart.
  rewrite (EventHandler_start_bound _ _ _ _ _
             (derive_queue_name_broadcast self srv_ctx w Hbc)) in Hstart.
  injection Hstart as <- <-.
  rewrite (EventHandler_start_bound _ _ _ _ _
             (derive_queue_name_broadcast (set_queue self _) srv_ctx _ Hbc)).
  do 4 eexists. split_and!; try reflexivity.
  - simpl. by rewrite <- app_assoc.
  - simpl. unfold next_uuid. simpl. split.
    + intros H. rewrite !broadcast_name_assoc in H.
      apply string_app_inj_suffix in H as [_ H].
      * apply UUID_str_inj in H; [done|apply uuid_of_bytes_lt..].
      * by rewrite !UUID_str_length.
    + by intros ->.
Qed.

Lemma EventHandler_restart_broadcast_renames_witness :
  ∃ q1 q2 self2 w2,
    queue broadcast_hello_started = Some q1
    ∧ EventHandler_start broadcast_hello_started listener_ctx world_after_start
      = (Ok self2, w2)
    ∧ queue self2 = Some q2
    ∧ declared w2 = (declared sample_world ++ [q1; q2])%list
    ∧ queue_name q2
      = "evt-" +:+ service_name broadcast_hello +:+ "-" +:+
        event_type broadcast_hello +:+ "-" +:+
        UUID_str (uuid_of_bytes (entropy sample_world (S (draws sample_world))))
    ∧ (queue_name q1 = queue_name q2
       ↔ next_uuid sample_world
         = uuid_of_bytes (entropy sample_world (S (draws sample_world)))).
Proof.
  exact (EventHandler_restart_broadcast_renames broadcast_hello listener_ctx
           sample_world broadcast_hello_started world_after_start
           eq_refl eq_refl).
Defined.

(** ** Dispatchers and registrations together *)

(** X2: a registration for events of type [et] of the service [sn] and a
    dispatcher started in a container named [sn] meet at the broker: an
    event of a kind whose [type] is [et] is published on the exchange the
    registration's queue is bound to, with the queue's routing key, carrying
    the event's data. *)
Theorem handler_queue_meets_dispatcher
    (sn et : string) (ht : pyobj) (rd roe : bool)
    (ctx_h ctx_d : gmap string pyval) (w_h w_d w : World)
    (self' : EventHandler) (w_h' : World)
    (disp : EventDispatcher) (w_d' : World)
    (cname : string) (bases : list pyclass) (dct : gmap string pyval)
    (cls : pyclass) (data : pyval) :
  EventHandler_start (EventHandler_init sn et ht rd roe) ctx_h w_h
    = (Ok self', w_h') →
  ctx_d !! "name" = Some (PyStr sn) →
  EventDispatcher_start EventDispatcher_init ctx_d w_d = (Ok disp, w_d') →
  EventMeta_new cname bases dct = Ok cls →
  dct !! "type" = Some (PyStr et) →
  ∃ q p,
    queue self' = Some q
    ∧ (EventDispatcher_call disp (Event_call cls data) w).1 = Ok tt
    ∧ outbox (EventDispatcher_call disp (Event_call cls data) w).2
      = (outbox w ++ [p])%list
    ∧ pub_exchange p = Some (queue_exchange q)
    ∧ pub_routing_key p = PyStr (queue_routing_key q)
    ∧ pub_payload p = data.
Proof.
  intros Hstart Hname Hdisp Hnew Htype.
  rewrite (EventDispatcher_start_spec _ _ _ _ Hname) in Hdisp.
  injection Hdisp as <- <-.
  apply EventMeta_new_ok_inv in Hnew as (-> & _).
  rewrite (EventDispatcher_call_spec _ (Event_call (PyClass cname bases dct) data)
             data (PyStr et)).
  - pose proof (EventHandler_start_cases (EventHandler_init sn et ht rd roe)
                  ctx_h w_h) as Hcases.
    simpl in Hcases.
    destruct Hcases
      as [(dest & _ & _ & Heq)|[(_ & _ & Heq)|[(_ & _ & Heq)
         |[(_ & Heq)|(_ & Heq)]]]]; rewrite Heq in Hstart; try done;
      injection Hstart as <- <-; by do 2 eexists.
  - unfold getattr, Event_call. simpl. by rewrite lookup_singleton_eq.
  - unfold getattr, Event_call. simpl.
    rewrite lookup_singleton_ne by done. by rewrite Htype.
Qed.

Lemma handler_queue_meets_dispatcher_witness :
  ∃ q p,
    queue (set_queue
             (EventHandler_init "event_raiser" "spam.ham" SINGLETON true false)
             (mkQueue "evt-event_raiser-spam.ham"
                (get_event_exchange "event_raiser") "spam.ham" true false))
    = Some q
    ∧ (EventDispatcher_call
         (mkEventDispatcher (Some (get_event_exchange "event_raiser")))
         (Event_call Spam (PyStr "ham and eggs")) sample_world).1 = Ok tt
    ∧ outbox (EventDispatcher_call
                (mkEventDispatcher (Some (get_event_exchange "event_raiser")))
                (Event_call Spam (PyStr "ham and eggs")) sample_world).2
      = (outbox sample_world ++ [p])%list
    ∧ pub_exchange p = Some (queue_exchange q)
    ∧ pub_routing_key p = PyStr (queue_routing_key q)
    ∧ pub_payload p = PyStr "ham and eggs".
Proof.
  exact (handler_queue_meets_dispatcher "event_raiser" "spam.ham" SINGLETON
           true false listener_ctx raiser_ctx sample_world sample_world
           sample_world _ _ _ _ "Spam" [object] Spam_namespace Spam
           (PyStr "ham and eggs") eq_refl eq_refl eq_refl eq_refl eq_refl).
Defined.

(** X14: for an event kind that declares a byte-string [type] and that
    [EventMeta] accepted, the routing key a started dispatcher hands to the
    publisher for any event of the kind is that string, and the string has
    at most 255 bytes, the bound that the metaclass checks for topic
    exchanges. *)
Theorem published_routing_key_bounded
    (self : EventDispatcher) (ex : Exchange) (cname : string)
    (bases : list pyclass) (dct : gmap string pyval) (cls : pyclass)
    (t : string) (data : pyval) (w : World) :
  dispatcher_exchange self = Some ex →
  EventMeta_new cname bases dct = Ok cls →
  dct !! "type" = Some (PyStr t) →
  String.length t ≤ 255
  ∧ getattr (Event_call cls data) "type" = Ok (PyStr t)
  ∧ outbox (EventDispatcher_call self (Event_call cls data) w).2
    = (outbox w ++ [mkPublication (Some ex) data (PyStr t)])%list.
Proof.
  intros Hex Hnew Ht. unfold EventMeta_new in Hnew. rewrite Ht in Hnew.
  simpl in Hnew.
  destruct (255 <? String.length t) eqn:Hlen; [done|].
  injection Hnew as <-. apply Nat.ltb_ge in Hlen.
  assert (getattr (Event_call (type_new cname bases dct) data) "type"
          = Ok (PyStr t)) as Htype.
  { unfold getattr, Event_call, type_new. simpl.
    rewrite lookup_singleton_ne by done. by rewrite Ht. }
  assert (getattr (Event_call (type_new cname bases dct) data) "data"
          = Ok data) as Hdata.
  { unfold getattr, Event_call. simpl. by rewrite lookup_singleton_eq. }
  split_and!; [lia|done|].
  rewrite (EventDispatcher_call_spec _ _ _ _ _ Hdata Htype).
  simpl. by rewrite Hex.
Qed.

Lemma published_routing_key_bounded_witness :
  String.length "spam.ham" ≤ 255
  ∧ getattr (Event_call Spam (PyStr "ham and eggs")) "type"
    = Ok (PyStr "spam.ham")
  ∧ outbox (EventDispatcher_call
              (mkEventDispatcher (Some (get_event_exchange "event_raiser")))
              (Event_call Spam (PyStr "ham and eggs")) sample_world).2
    = (outbox sample_world ++
       [mkPublication (Some (get_event_exchange "event_raiser"))
          (PyStr "ham and eggs") (PyStr "spam.ham")])%list.
Proof.
  exact (published_routing_key_bounded
           (mkEventDispatcher (Some (get_event_exchange "event_raiser")))
           (get_event_exchange "event_raiser") "Spam" [object]
           Spam_namespace Spam "spam.ham" (PyStr "ham and eggs") sample_world
           eq_refl eq_refl eq_refl).
Defined.

(** X15: [event_handler] puts no bound on [event_type].  A registration for
    an event type longer than 255 bytes is accepted and starts like any
    other, bound with that routing key, although no event kind of that type
    can be defined. *)
Theorem event_handler_ignores_type_length
    (sn et : string) (rd roe : bool)
    (srv_ctx : gmap string pyval) (w : World) :
  255 < String.length et →
  event_handler sn et SINGLETON rd roe
    = Ok (EventHandler_init sn et SINGLETON rd roe)
  ∧ (∃ self' w' q,
       EventHandler_start (EventHandler_init sn et SINGLETON rd roe) srv_ctx w
       = (Ok self', w')
       ∧ queue self' = Some q
       ∧ queue_routing_key q = et)
  ∧ (∀ cname bases dct,
       dct !! "type" = Some (PyStr et) →
       EventMeta_new cname bases dct = Raise (EventTypeTooLong et)).
Proof.
  intros Hlen. split_and!.
  - unfold event_handler. by destruct rd.
  - rewrite (EventHandler_start_bound _ _ _ _ _
               (derive_queue_name_singleton
                  (EventHandler_init sn et SINGLETON rd roe) srv_ctx w eq_refl)).
    by do 3 eexists.
  - intros cname bases dct Ht. unfold EventMeta_new. rewrite Ht. simpl.
    apply Nat.ltb_lt in Hlen. by rewrite Hlen.
Qed.

Lemma event_handler_ignores_type_length_witness :
  event_handler "src" long_type SINGLETON true false
  = Ok (EventHandler_init "src" long_type SINGLETON true false)
  ∧ EventMeta_new "Long" [object] {[ "type" := PyStr long_type ]}
    = Raise (EventTypeTooLong long_type).
Proof.
  assert (255 < String.length long_type) as Hlen by (vm_compute; lia).
  destruct (event_handler_ignores_type_length "src" long_type true false
              listener_ctx sample_world Hlen) as (Hreg & _ & Hkind).
  split; [exact Hreg|].
  exact (Hkind "Long" [object] {[ "type" := PyStr long_type ]} eq_refl).
Defined.

(** ** When queue names tell registrations apart *)

Lemma dash_split_inj (a b x y : string) :
  dash_free a = true → dash_free b = true →
  a +:+ String "-" x = b +:+ String "-" y → a = b ∧ x = y.
Proof.
  revert b. induction a as [|c a IH]; intros [|d b] Ha Hb H.
  - rewrite !string_app_nil in H. by injection H as ->.
  - rewrite string_app_nil, string_app_cons in H. injection H as <- _.
    simpl in Hb. done.
  - rewrite string_app_nil, string_app_cons in H. injection H as -> _.
    simpl in Ha. done.
  - rewrite !string_app_cons in H. injection H as -> H.
    simpl in Ha, Hb.
    apply andb_true_iff in Ha as [_ Ha]. apply andb_true_iff in Hb as [_ Hb].
    destruct (IH b Ha Hb H) as [-> ->]. done.
Qed.

(** X8: when the service names hold no ["-"], the queue name of a
    [SINGLETON] registration determines its service name and event type;
    when the event types hold none either, the queue name of a
    [SERVICE_POOL] registration determines service name, event type and
    destination container. *)
Theorem queue_name_injective_without_dashes
    (sn1 et1 sn2 et2 : string) (rd1 roe1 rd2 roe2 : bool)
    (ctx1 ctx2 : gmap string pyval) (w1 w2 : World) :
  dash_free sn1 = true → dash_free sn2 = true →
  (started_queue_name
     (EventHandler_start (EventHandler_init sn1 et1 SINGLETON rd1 roe1)
        ctx1 w1).1
   = started_queue_name
       (EventHandler_start (EventHandler_init sn2 et2 SINGLETON rd2 roe2)
          ctx2 w2).1 →
   sn1 = sn2 ∧ et1 = et2)
  ∧ (∀ dest1 dest2,
       dash_free et1 = true → dash_free et2 = true →
       ctx1 !! "name" = Some (PyStr dest1) →
       ctx2 !! "name" = Some (PyStr dest2) →
       started_queue_name
         (EventHandler_start (EventHandler_init sn1 et1 SERVICE_POOL rd1 roe1)
            ctx1 w1).1
       = started_queue_name
           (EventHandler_start (EventHandler_init sn2 et2 SERVICE_POOL rd2 roe2)
              ctx2 w2).1 →
       sn1 = sn2 ∧ et1 = et2 ∧ dest1 = dest2).
Proof.
  intros Hs1 Hs2. split.
  - rewrite (started_name_singleton
               (EventHandler_init sn1 et1 SINGLETON rd1 roe1) ctx1 w1 eq_refl).
    rewrite (started_name_singleton
               (EventHandler_init sn2 et2 SINGLETON rd2 roe2) ctx2 w2 eq_refl).
    simpl. intros H. apply (inj Some) in H.
    apply (inj (String.append "evt-")) in H.
    by apply dash_split_inj in H.
  - intros dest1 dest2 He1 He2 Hd1 Hd2.
    rewrite (started_name_service_pool
               (EventHandler_init sn1 et1 SERVICE_POOL rd1 roe1) _ w1 _
               eq_refl Hd1).
    rewrite (started_name_service_pool
               (EventHandler_init sn2 et2 SERVICE_POOL rd2 roe2) _ w2 _
               eq_refl Hd2).
    simpl. intros H. apply (inj Some) in H.
    apply (inj (String.append "evt-")) in H.
    apply dash_split_inj in H as [-> H]; [|done..].
    apply dash_split_inj in H as [-> ->]; done.
Qed.

Lemma queue_name_injective_without_dashes_witness :
  (started_queue_name
     (EventHandler_start (EventHandler_init "src" "hello" SINGLETON true false)
        listener_ctx sample_world).1
   = started_queue_name
       (EventHandler_start (EventHandler_init "src" "hello" SINGLETON false true)
          raiser_ctx world_after_start).1 →
   "src" = "src" ∧ "hello" = "hello")
  ∧ dash_free "src" = true.
Proof.
  split; [|reflexivity].
  exact (proj1 (queue_name_injective_without_dashes "src" "hello" "src" "hello"
                  true false false true listener_ctx raiser_ctx
                  sample_world world_after_start eq_refl eq_refl)).
Defined.

(** X7: the ["-"] that separates the fields of a queue name is not escaped,
    so names clash across registrations.  A [SINGLETON] registration for the
    event type ["{e}-{d}"] gets the queue name of the [SERVICE_POOL]
    registration for [e] started in the container [d]; and a [SINGLETON]
    registration for events [e] of the service ["{s}-{x}"] gets the queue
    name of the one for events ["{x}-{e}"] of the service [s], though the two
    queues are bound to different exchanges. *)
Theorem queue_names_clash_on_dashes
    (s x e d : string) (rd1 roe1 rd2 roe2 : bool)
    (ctx1 ctx2 : gmap string pyval) (w1 w2 : World) :
  (ctx1 !! "name" = Some (PyStr d) →
   ∃ self1 w1' q1 self2 w2' q2,
     EventHandler_start (EventHandler_init s e SERVICE_POOL rd1 roe1) ctx1 w1
     = (Ok self1, w1')
     ∧ queue self1 = Some q1
     ∧ EventHandler_start
         (EventHandler_init s (e +:+ "-" +:+ d) SINGLETON rd2 roe2) ctx2 w2
       = (Ok self2, w2')
     ∧ queue self2 = Some q2
     ∧ queue_name q1 = queue_name q2
     ∧ queue_exchange q1 = queue_exchange q2
     ∧ queue_routing_key q1 = e
     ∧ queue_routing_key q2 = e +:+ "-" +:+ d)
  ∧ (∃ self1 w1' q1 self2 w2' q2,
       EventHandler_start
         (EventHandler_init (s +:+ "-" +:+ x) e SINGLETON rd1 roe1) ctx1 w1
       = (Ok self1, w1')
       ∧ queue self1 = Some q1
       ∧ EventHandler_start
           (EventHandler_init s (x +:+ "-" +:+ e) SINGLETON rd2 roe2) ctx2 w2
         = (Ok self2, w2')
       ∧ queue self2 = Some q2
       ∧ queue_name q1 = queue_name q2
       ∧ queue_exchange q1 ≠ queue_exchange q2).
Proof.
  split.
  - intros Hd.
    rewrite (EventHandler_start_bound _ _ _ _ _
               (derive_queue_name_service_pool
                  (EventHandler_init s e SERVICE_POOL rd1 roe1) _ w1 _
                  eq_refl Hd)).
    rewrite (EventHandler_start_bound _ _ _ _ _
               (derive_queue_name_singleton
                  (EventHandler_init s (e +:+ "-" +:+ d) SINGLETON rd2 roe2)
                  ctx2 w2 eq_refl)).
    do 6 eexists. split_and!; reflexivity.
  - rewrite (EventHandler_start_bound _ _ _ _ _
               (derive_queue_name_singleton
                  (EventHandler_init (s +:+ "-" +:+ x) e SINGLETON rd1 roe1)
                  ctx1 w1 eq_refl)).
    rewrite (EventHandler_start_bound _ _ _ _ _
               (derive_queue_name_singleton
                  (EventHandler_init s (x +:+ "-" +:+ e) SINGLETON rd2 roe2)
                  ctx2 w2 eq_refl)).
    do 6 eexists. split_and!; try reflexivity; simpl.
    + by rewrite !string_app_assoc.
    + intros H. apply get_event_exchange_inj in H.
      apply (f_equal String.length) in H.
      rewrite !string_length_app in H. simpl in H. lia.
Qed.

Lemma queue_names_clash_on_dashes_witness :
  ∃ self1 w1' q1 self2 w2' q2,
    EventHandler_start pooled_hello listener_ctx sample_world
    = (Ok self1, w1')
    ∧ queue self1 = Some q1
    ∧ EventHandler_start
        (EventHandler_init "src" ("hello" +:+ "-" +:+ "listener") SINGLETON
           true false) raiser_ctx sample_world
      = (Ok self2, w2')
    ∧ queue self2 = Some q2
    ∧ queue_name q1 = queue_name q2
    ∧ queue_exchange q1 = queue_exchange q2
    ∧ queue_routing_key q1 = "hello"
    ∧ queue_routing_key q2 = "hello" +:+ "-" +:+ "listener".
Proof.
  exact (proj1 (queue_names_clash_on_dashes "src" "x" "hello" "listener"
                  true false true false listener_ctx raiser_ctx
                  sample_world sample_world) eq_refl).
Defined.

(** X12: the length of a derived queue name is the length of the service
    name plus that of the event type, plus 5 for [SINGLETON], plus 6 and the
    length of the container name for [SERVICE_POOL], and plus 42 for
    [BROADCAST], whose UUID always takes 36 characters. *)
Theorem queue_name_lengths
    (sn et : string) (rd roe : bool)
    (srv_ctx : gmap string pyval) (w : World) :
  (∀ dest, srv_ctx !! "name" = Some (PyStr dest) →
     String.length <$> started_queue_name
       (EventHandler_start (EventHandler_init sn et SERVICE_POOL rd roe)
          srv_ctx w).1
     = Some (6 + String.length sn + String.length et + String.length dest))
  ∧ String.length <$> started_queue_name
      (EventHandler_start (EventHandler_init sn et SINGLETON rd roe)
         srv_ctx w).1
    = Some (5 + String.length sn + String.length et)
  ∧ String.length <$> started_queue_name
      (EventHandler_start (EventHandler_init sn et BROADCAST rd roe)
         srv_ctx w).1
    = Some (42 + String.length sn + String.length et).
Proof.
  split_and!.
  - intros dest Hd.
    rewrite (started_name_service_pool
               (EventHandler_init sn et SERVICE_POOL rd roe) _ w _ eq_refl Hd).
    simpl. f_equal. rewrite !string_length_app. simpl. lia.
  - rewrite (started_name_singleton
               (EventHandler_init sn et SINGLETON rd roe) srv_ctx w eq_refl).
    simpl. f_equal. rewrite !string_length_app. simpl. lia.
  - destruct (started_name_broadcast
                (EventHandler_init sn et BROADCAST rd roe) srv_ctx w eq_refl)
      as [-> _].
    simpl. f_equal. rewrite !string_length_app, UUID_str_length. simpl. lia.
Qed.

Lemma queue_name_lengths_witness :
  String.length <$> started_queue_name
    (EventHandler_start pooled_hello listener_ctx sample_world).1
  = Some (6 + 3 + 5 + 8).
Proof.
  exact (proj1 (queue_name_lengths "src" "hello" true false listener_ctx
                  sample_world) "listener" eq_refl).
Defined.

(** ** Outcomes of a dispatch and of a dispatcher's start *)

Lemma getattr_raise obj attr e :
  getattr obj attr = Raise e → e = AttributeError attr.
Proof.
  unfold getattr. destruct (inst_dict obj !! attr); [done|].
  destruct (class_getattr attr (inst_class obj)); [done|]. by intros [= <-].
Qed.

(** X11: a dispatch reads [evt.data] and then [evt.type] before it calls
    the publisher.  When the object has no [data], or has [data] but no
    [type], the dispatch raises the [AttributeError] of that read and the
    publisher is never reached: nothing is published and the world is as it
    was.  (An attribute is missing exactly when neither the object nor any
    class above it declares it, whatever the order of the search.) *)
Theorem EventDispatcher_call_missing_attribute
    (self : EventDispatcher) (evt : instance) (w : World) :
  (∀ e, getattr evt "data" = Raise e →
     e = AttributeError "data"
     ∧ EventDispatcher_call self evt w = (Raise (AttributeError "data"), w))
  ∧ (∀ data e,
       getattr evt "data" = Ok data →
       getattr evt "type" = Raise e →
       e = AttributeError "type"
       ∧ EventDispatcher_call self evt w
         = (Raise (AttributeError "type"), w)).
Proof.
  unfold EventDispatcher_call. split.
  - intros e Hd. pose proof (getattr_raise _ _ _ Hd) as ->.
    split; [done|]. run_M. by rewrite Hd.
  - intros data e Hd Ht. pose proof (getattr_raise _ _ _ Ht) as ->.
    split; [done|]. run_M. by rewrite Hd, Ht.
Qed.

Lemma EventDispatcher_call_missing_attribute_witness :
  EventDispatcher_call (mkEventDispatcher (Some (get_event_exchange "src")))
    typeless_event sample_world
  = (Raise (AttributeError "type"), sample_world).
Proof.
  exact (proj2 (proj2 (EventDispatcher_call_missing_attribute
                   (mkEventDispatcher (Some (get_event_exchange "src")))
                   typeless_event sample_world)
            (PyStr "ham") (AttributeError "type") eq_refl eq_refl)).
Defined.

(** X4: a dispatcher's [start] raises [KeyError("name")] in a context without
    ["name"] and touches nothing.  Otherwise it binds the exchange of that
    name whatever the dispatcher held before, so a dispatcher started again
    in a container of another name publishes on the exchange of the new
    name from then on. *)
Theorem EventDispatcher_start_rebinds
    (self : EventDispatcher) (srv_ctx : gmap string pyval) (w : World) :
  (srv_ctx !! "name" = None →
   EventDispatcher_start self srv_ctx w = (Raise (KeyError "name"), w))
  ∧ (∀ name self1 w1 evt data type w2,
       srv_ctx !! "name" = Some (PyStr name) →
       EventDispatcher_start self srv_ctx w = (Ok self1, w1) →
       getattr evt "data" = Ok data →
       getattr evt "type" = Ok type →
       w1 = w
       ∧ outbox (EventDispatcher_call self1 evt w2).2
         = (outbox w2 ++
            [mkPublication (Some (get_event_exchange name)) data type])%list).
Proof.
  split.
  - intros Hname. unfold EventDispatcher_start. run_M. by rewrite Hname.
  - intros name self1 w1 evt data type w2 Hname Hstart Hd Ht.
    rewrite (EventDispatcher_start_spec _ _ _ _ Hname) in Hstart.
    injection Hstart as <- <-. split; [done|].
    by rewrite (EventDispatcher_call_spec _ _ _ _ _ Hd Ht).
Qed.

Lemma EventDispatcher_start_rebinds_witness :
  EventDispatcher_start EventDispatcher_init ∅ sample_world
  = (Raise (KeyError "name"), sample_world)
  ∧ outbox (EventDispatcher_call
              (mkEventDispatcher (Some (get_event_exchange "listener")))
              (Event_call Spam (PyStr "ham")) sample_world).2
    = [mkPublication (Some (get_event_exchange "listener"))
         (PyStr "ham") (PyStr "spam.ham")].
Proof.
  split.
  - exact (proj1 (EventDispatcher_start_rebinds EventDispatcher_init ∅
                    sample_world) eq_refl).
  - exact (proj2 (proj2 (EventDispatcher_start_rebinds
                    (mkEventDispatcher (Some (get_event_exchange "event_raiser")))
                    listener_ctx sample_world)
             "listener" _ _ (Event_call Spam (PyStr "ham")) (PyStr "ham")
             (PyStr "spam.ham") sample_world
             eq_refl eq_refl eq_refl eq_refl)).
Defined.

(** ** Broadcast names under a repeating random source *)

(** Nothing in [start] compares the UUID it draws with earlier ones: when
    the random source repeats, two starts of the same broadcast
    registration, one after the other, get the same queue name. *)
Lemma queue_name_determinism_counterexample :
  started_queue_name
    (EventHandler_start broadcast_hello listener_ctx repeating_world).1
  = Some "evt-src-hello-01234567-89ab-4def-8123-456789abcdef"
  ∧ started_queue_name
      (EventHandler_start broadcast_hello listener_ctx
         (EventHandler_start broadcast_hello listener_ctx repeating_world).2).1
    = Some "evt-src-hello-01234567-89ab-4def-8123-456789abcdef"
  ∧ draws (EventHandler_start broadcast_hello listener_ctx repeating_world).2
    = 1.
Proof. by vm_compute. Qed.
